(** * Batch registration: job descriptors, submission and script templates

    A shallow embedding of [batch_registration.py] and
    [multi_registration.py].  Both files carry the same [BatchJob] class;
    it is modelled once.  The script classes ([SubmitScript],
    [BatchScript]) and the two [main] drivers are modelled separately. *)

From Stdlib Require Import ZArith Lia Ascii String.
From stdpp Require Import base option list gmap strings pretty.

Local Open Scope Z_scope.
Local Open Scope string_scope.
Local Open Scope list_scope.

(** ** Python values and exceptions *)

Module Py.

(** The exceptions the two scripts can raise. *)
Inductive exn : Type :=
| KeyError (key : string)
| ValueError (msg : string)
| IndexError
| AssertionError
| OverflowError
| OSError
| Exception (msg : string).

Inductive result (A : Type) : Type :=
| Ok (a : A)
| Raise (e : exn).
Arguments Ok {A} a.
Arguments Raise {A} e.

Definition bind {A B} (m : result A) (k : A -> result B) : result B :=
  match m with
  | Ok a => k a
  | Raise e => Raise e
  end.

#[global] Instance exn_eq_dec : EqDecision exn.
Proof. solve_decision. Defined.

#[global] Instance result_eq_dec {A} `{EqDecision A} : EqDecision (result A).
Proof. solve_decision. Defined.

Definition is_ok {A} (m : result A) : bool :=
  match m with Ok _ => true | Raise _ => false end.

(** An attribute of a job, a constructor argument: [None] or a [str]. *)
Definition truthy (v : option string) : bool :=
  match v with
  | None => false
  | Some EmptyString => false
  | Some (String _ _) => true
  end.

Definition is_None {A} (v : option A) : bool :=
  match v with None => true | Some _ => false end.

(** [str(v)], as used by the [%s] conversion. *)
Definition str (v : option string) : string :=
  match v with
  | None => "None"
  | Some s => s
  end.

End Py.

Export Py.

#[global] Instance result_ret : MRet result := @Ok.
#[global] Instance result_bind : MBind result := fun A B k m => bind m k.

(** ** The job descriptor: [class BatchJob] *)

Record BatchJob : Type := mkBatchJob {
  _name : option string;
  _walltime : option string;
  _nodes : option string;
  _stderr_path : option string;
  _stdout_path : option string;
  _workdir : option string;
  _dependency_list : option string;
  _mail_options : option string;
  _mem : option string;
  _vmem : option string;
  attribute_count : Z;
  job_script : string;
  job_id : option string
}.

(** The body shared by the nine counting setters:
    [if not self.x and x: count += 1  elif x is None and self.x: count -= 1]. *)
Definition count_after (old new : option string) (count : Z) : Z :=
  if negb (truthy old) && truthy new then count + 1
  else if is_None new && truthy old then count - 1
  else count.

Definition set_name (name : option string) (d : BatchJob) : BatchJob :=
  mkBatchJob name (_walltime d) (_nodes d) (_stderr_path d) (_stdout_path d)
    (_workdir d) (_dependency_list d) (_mail_options d) (_mem d) (_vmem d)
    (count_after (_name d) name (attribute_count d)) (job_script d) (job_id d).

Definition set_walltime (walltime : option string) (d : BatchJob) : BatchJob :=
  mkBatchJob (_name d) walltime (_nodes d) (_stderr_path d) (_stdout_path d)
    (_workdir d) (_dependency_list d) (_mail_options d) (_mem d) (_vmem d)
    (count_after (_walltime d) walltime (attribute_count d)) (job_script d) (job_id d).

Definition set_nodes (nodes : option string) (d : BatchJob) : BatchJob :=
  mkBatchJob (_name d) (_walltime d) nodes (_stderr_path d) (_stdout_path d)
    (_workdir d) (_dependency_list d) (_mail_options d) (_mem d) (_vmem d)
    (count_after (_nodes d) nodes (attribute_count d)) (job_script d) (job_id d).

Definition set_stderr_path (stderr_path : option string) (d : BatchJob) : BatchJob :=
  mkBatchJob (_name d) (_walltime d) (_nodes d) stderr_path (_stdout_path d)
    (_workdir d) (_dependency_list d) (_mail_options d) (_mem d) (_vmem d)
    (count_after (_stderr_path d) stderr_path (attribute_count d)) (job_script d) (job_id d).

Definition set_stdout_path (stdout_path : option string) (d : BatchJob) : BatchJob :=
  mkBatchJob (_name d) (_walltime d) (_nodes d) (_stderr_path d) stdout_path
    (_workdir d) (_dependency_list d) (_mail_options d) (_mem d) (_vmem d)
    (count_after (_stdout_path d) stdout_path (attribute_count d)) (job_script d) (job_id d).

Definition set_dependency_list (dependency_list : option string) (d : BatchJob) : BatchJob :=
  mkBatchJob (_name d) (_walltime d) (_nodes d) (_stderr_path d) (_stdout_path d)
    (_workdir d) dependency_list (_mail_options d) (_mem d) (_vmem d)
    (count_after (_dependency_list d) dependency_list (attribute_count d))
    (job_script d) (job_id d).

(** [set_workdir] does not count; a falsy argument resolves to [os.getcwd()]. *)
Definition set_workdir (getcwd : string) (workdir : option string) (d : BatchJob) : BatchJob :=
  mkBatchJob (_name d) (_walltime d) (_nodes d) (_stderr_path d) (_stdout_path d)
    (if negb (truthy workdir) then Some getcwd else workdir)
    (_dependency_list d) (_mail_options d) (_mem d) (_vmem d)
    (attribute_count d) (job_script d) (job_id d).

Definition set_mail_options (mail_options : option string) (d : BatchJob) : BatchJob :=
  mkBatchJob (_name d) (_walltime d) (_nodes d) (_stderr_path d) (_stdout_path d)
    (_workdir d) (_dependency_list d) mail_options (_mem d) (_vmem d)
    (count_after (_mail_options d) mail_options (attribute_count d)) (job_script d) (job_id d).

Definition set_mem (mem : option string) (d : BatchJob) : BatchJob :=
  mkBatchJob (_name d) (_walltime d) (_nodes d) (_stderr_path d) (_stdout_path d)
    (_workdir d) (_dependency_list d) (_mail_options d) mem (_vmem d)
    (count_after (_mem d) mem (attribute_count d)) (job_script d) (job_id d).

Definition set_vmem (vmem : option string) (d : BatchJob) : BatchJob :=
  mkBatchJob (_name d) (_walltime d) (_nodes d) (_stderr_path d) (_stdout_path d)
    (_workdir d) (_dependency_list d) (_mail_options d) (_mem d) vmem
    (count_after (_vmem d) vmem (attribute_count d)) (job_script d) (job_id d).

Definition set_job_id (id : option string) (d : BatchJob) : BatchJob :=
  mkBatchJob (_name d) (_walltime d) (_nodes d) (_stderr_path d) (_stdout_path d)
    (_workdir d) (_dependency_list d) (_mail_options d) (_mem d) (_vmem d)
    (attribute_count d) (job_script d) id.

(** The keyword arguments of [BatchJob.__init__], all defaulting to [None]. *)
Record init_args : Type := mkArgs {
  arg_name : option string;
  arg_walltime : option string;
  arg_nodes : option string;
  arg_stderr : option string;
  arg_stdout : option string;
  arg_workdir : option string;
  arg_mail_options : option string;
  arg_dependency_list : option string;
  arg_mem : option string;
  arg_vmem : option string
}.

(** [BatchJob.__init__]: the private fields start as [None], the count as 0,
    then every argument goes through its setter, in the source's order. *)
Definition BatchJob_init (getcwd : string) (script : string) (a : init_args) : BatchJob :=
  let d := mkBatchJob None None None None None None None None None None 0 script None in
  let d := set_name (arg_name a) d in
  let d := set_walltime (arg_walltime a) d in
  let d := set_nodes (arg_nodes a) d in
  let d := set_stdout_path (arg_stdout a) d in
  let d := set_stderr_path (arg_stderr a) d in
  let d := set_workdir getcwd (arg_workdir a) d in
  let d := set_job_id None d in
  let d := set_mail_options (arg_mail_options a) d in
  let d := set_dependency_list (arg_dependency_list a) d in
  let d := set_mem (arg_mem a) d in
  set_vmem (arg_vmem a) d.

(** A later assignment to one of the properties. *)
Inductive setter : Type :=
| SetName (v : option string)
| SetWalltime (v : option string)
| SetNodes (v : option string)
| SetStderrPath (v : option string)
| SetStdoutPath (v : option string)
| SetDependencyList (v : option string)
| SetWorkdir (v : option string)
| SetMailOptions (v : option string)
| SetMem (v : option string)
| SetVmem (v : option string).

Definition apply_setter (getcwd : string) (o : setter) (d : BatchJob) : BatchJob :=
  match o with
  | SetName v => set_name v d
  | SetWalltime v => set_walltime v d
  | SetNodes v => set_nodes v d
  | SetStderrPath v => set_stderr_path v d
  | SetStdoutPath v => set_stdout_path v d
  | SetDependencyList v => set_dependency_list v d
  | SetWorkdir v => set_workdir getcwd v d
  | SetMailOptions v => set_mail_options v d
  | SetMem v => set_mem v d
  | SetVmem v => set_vmem v d
  end.

(** Setters applied left to right. *)
Definition apply_setters (getcwd : string) (os : list setter) (d : BatchJob) : BatchJob :=
  fold_left (fun d o => apply_setter getcwd o d) os d.

(** The descriptors a program can hold: built by the constructor, then
    mutated through the properties. *)
Inductive reachable (getcwd : string) : BatchJob -> Prop :=
| reach_init script a : reachable getcwd (BatchJob_init getcwd script a)
| reach_set o d : reachable getcwd d -> reachable getcwd (apply_setter getcwd o d).

(** The optional attributes that [submit] treats as set ([if self.x:]). *)
Definition optional_attributes (d : BatchJob) : list (option string) :=
  [_name d; _walltime d; _nodes d; _stdout_path d; _stderr_path d;
   _dependency_list d; _mail_options d; _mem d; _vmem d].

Definition b2z (b : bool) : Z := if b then 1 else 0.

Definition num_set (d : BatchJob) : Z :=
  foldr (fun v n => b2z (truthy v) + n) 0 (optional_attributes d).

(** ** The resource manager's client library: [import pbs]

    The library is external.  Its attribute identifiers are kept abstract
    (an enumeration), its attribute array is a list with checked indexing,
    and the manager's answers are read from the [world]. *)

Module pbs.

Inductive attr_name : Type :=
| ATTR_v | ATTR_N | ATTR_l | ATTR_o | ATTR_e | ATTR_depend | ATTR_m.

#[global] Instance attr_name_eq_dec : EqDecision attr_name.
Proof. solve_decision. Defined.

(** One slot of the attribute array. *)
Record attropl : Type := mkAttr {
  name : option attr_name;
  resource : option string;
  value : option string
}.

#[global] Instance attropl_eq_dec : EqDecision attropl.
Proof. solve_decision. Defined.

Definition blank : attropl := mkAttr None None None.

(** [pbs.new_attropl(n)]: an array of [n] blank slots. *)
Definition new_attropl (n : Z) : list attropl := replicate (Z.to_nat n) blank.

(** The calls made on the library, in order. *)
Inductive call : Type :=
| pbs_connect (server : string) (handle : Z)
| pbs_submit (handle : Z) (attribs : list attropl) (script : string)
| pbs_disconnect (handle : Z).

Definition is_submit (c : call) : bool :=
  match c with pbs_submit _ _ _ => true | _ => false end.
Definition is_connect (c : call) : bool :=
  match c with pbs_connect _ _ => true | _ => false end.
Definition is_disconnect (c : call) : bool :=
  match c with pbs_disconnect _ => true | _ => false end.

End pbs.

(** ** The process environment and the outside world *)

Record world : Type := mkWorld {
  environ : gmap string string;           (* os.environ *)
  getcwd : string;                        (* os.getcwd() *)
  getfqdn : string;                       (* socket.getfqdn() *)
  pbs_default : string;                   (* pbs.pbs_default() *)
  connect_reply : nat -> Z;               (* handle given by the n-th pbs_connect *)
  submit_reply : nat -> option string * (Z * string);
    (* for the n-th pbs_submit: the job id it returns, and what pbs.error()
       reports once the connection is closed *)
  pbs_calls : list pbs.call;              (* calls made so far, oldest first *)
  listdir : string -> result (list string);   (* os.listdir *)
  abspath : string -> string;             (* os.path.abspath *)
  files : gmap string string;             (* temporary files and their contents *)
  mkstemp_count : nat;                    (* temporary names handed out so far *)
  stdout : list string                    (* lines printed so far, oldest first *)
}.

Definition with_pbs_calls (cs : list pbs.call) (w : world) : world :=
  mkWorld (environ w) (getcwd w) (getfqdn w) (pbs_default w) (connect_reply w)
    (submit_reply w) cs (listdir w) (abspath w) (files w) (mkstemp_count w) (stdout w).

Definition with_files (fs : gmap string string) (n : nat) (w : world) : world :=
  mkWorld (environ w) (getcwd w) (getfqdn w) (pbs_default w) (connect_reply w)
    (submit_reply w) (pbs_calls w) (listdir w) (abspath w) fs n (stdout w).

Definition with_stdout (out : list string) (w : world) : world :=
  mkWorld (environ w) (getcwd w) (getfqdn w) (pbs_default w) (connect_reply w)
    (submit_reply w) (pbs_calls w) (listdir w) (abspath w) (files w) (mkstemp_count w) out.

(** [m[k]] on a dictionary of strings. *)
Definition getitem (m : gmap string string) (k : string) : result string :=
  match m !! k with
  | Some v => Ok v
  | None => Raise (KeyError k)
  end.

(** ** [BatchJob.generate_env] *)

Definition generate_env (w : world) (d : BatchJob) : result string :=
  let env := "PBS_O_WORKDIR=" +:+ str (_workdir d) in
  let env := env +:+ ",PBS_O_HOST=" +:+ getfqdn w in
  path ← getitem (environ w) "PATH";
  let env := if truthy (Some path) then env +:+ ",PBS_O_PATH=" +:+ path else env in
  home ← getitem (environ w) "HOME";
  let env := if truthy (Some home) then env +:+ ",PBS_O_HOME=" +:+ home else env in
  logname ← getitem (environ w) "LOGNAME";
  let env := if truthy (Some logname) then env +:+ ",PBS_O_LOGNAME=" +:+ logname else env in
  Ok env.

(** ** [BatchJob.submit] *)

(** [attropl[idx].name = n; attropl[idx].resource = r; attropl[idx].value = v]:
    indexing past the end raises; a slot written without a resource keeps
    the one it had. *)
Definition attropl_set (a : list pbs.attropl) (idx : nat)
    (n : pbs.attr_name) (r : option string) (v : option string)
    : result (list pbs.attropl) :=
  match a !! idx with
  | None => Raise IndexError
  | Some e =>
      Ok (<[idx := pbs.mkAttr (Some n) (if r is Some _ then r else pbs.resource e) v]> a)
  end.

(** One [if self.x:] block of [submit]: write the slot, advance the index. *)
Definition fill (cond : bool) (n : pbs.attr_name) (r : option string) (v : option string)
    (st : list pbs.attropl * nat) : result (list pbs.attropl * nat) :=
  if cond then
    a ← attropl_set st.1 st.2 n r v;
    Ok (a, S st.2)
  else Ok st.

(** The first half of [submit]: the attribute array and the final write
    index [attropl_idx].  The first slot gets its name before
    [generate_env] runs and its value afterwards. *)
Definition build_attropl (w : world) (d : BatchJob) : result (list pbs.attropl * nat) :=
  let attropl := pbs.new_attropl (attribute_count d + 1) in
  let attropl_idx := 0%nat in
  attropl ← attropl_set attropl attropl_idx pbs.ATTR_v None None;
  env ← generate_env w d;
  st ← fill true pbs.ATTR_v None (Some env) (attropl, attropl_idx);
  st ← fill (truthy (_name d)) pbs.ATTR_N None (_name d) st;
  st ← fill (truthy (_walltime d)) pbs.ATTR_l (Some "walltime") (_walltime d) st;
  st ← fill (truthy (_nodes d)) pbs.ATTR_l (Some "nodes") (_nodes d) st;
  st ← fill (truthy (_stdout_path d)) pbs.ATTR_o None (_stdout_path d) st;
  st ← fill (truthy (_stderr_path d)) pbs.ATTR_o None (_stderr_path d) st;
  st ← fill (truthy (_dependency_list d)) pbs.ATTR_depend None (_dependency_list d) st;
  st ← fill (truthy (_mail_options d)) pbs.ATTR_m None (_mail_options d) st;
  st ← fill (truthy (_mem d)) pbs.ATTR_l (Some "mem") (_mem d) st;
  fill (truthy (_vmem d)) pbs.ATTR_l (Some "vmem") (_vmem d) st.

Definition count_calls (p : pbs.call -> bool) (cs : list pbs.call) : nat :=
  length (filter (fun c => p c = true) cs).

(** ["%d: %s" % (e, e_msg)] *)
Definition error_message (e : Z) (e_msg : string) : string :=
  pretty e +:+ ": " +:+ e_msg.

(** [submit] returns the job id or raises; it also assigns [self.job_id] and
    talks to the manager, so the descriptor and the world are returned too. *)
Definition submit (d : BatchJob) (w : world)
    : result (option string) * BatchJob * world :=
  match build_attropl w d with
  | Raise e => (Raise e, d, w)
  | Ok (attropl, _) =>
      let connection := connect_reply w (count_calls pbs.is_connect (pbs_calls w)) in
      let w := with_pbs_calls (pbs_calls w ++ [pbs.pbs_connect (pbs_default w) connection]) w in
      let reply := submit_reply w (count_calls pbs.is_submit (pbs_calls w)) in
      let w := with_pbs_calls
                 (pbs_calls w ++ [pbs.pbs_submit connection attropl (job_script d)]) w in
      let d := set_job_id reply.1 d in
      let w := with_pbs_calls (pbs_calls w ++ [pbs.pbs_disconnect connection]) w in
      let '(e, e_msg) := reply.2 in
      if bool_decide (e ≠ 0) then (Raise (Exception (error_message e e_msg)), d, w)
      else (Ok (job_id d), d, w)
  end.

(** ** String helpers from the Python library *)

Module ospath.

Definition ascii_eqb (a b : ascii) : bool := bool_decide (a = b).

(** [s.rfind(c)] for a one-character [c]: the last index, or -1.
    [i] is the index of the head of [s]. *)
Fixpoint rfind_from (c : ascii) (s : string) (i : Z) : Z :=
  match s with
  | EmptyString => -1
  | String a s' =>
      let r := rfind_from c s' (i + 1) in
      if (0 <=? r)%Z then r else if ascii_eqb a c then i else -1
  end.

Definition rfind (c : ascii) (s : string) : Z := rfind_from c s 0.

(** [s[i:j]] and [s[i:]] for indices within range. *)
Definition slice (s : string) (i j : Z) : string :=
  substring (Z.to_nat i) (Z.to_nat (j - i)) s.
Definition slice_from (s : string) (i : Z) : string :=
  substring (Z.to_nat i) (String.length s - Z.to_nat i) s.

(** Some character of [s] differs from [c]. *)
Fixpoint has_other (c : ascii) (s : string) : bool :=
  match s with
  | EmptyString => false
  | String a s' => if ascii_eqb a c then has_other c s' else true
  end.

(** [os.path.splitext]: split at the last dot after the last slash, unless
    only dots precede it in the file name. *)
Definition splitext (p : string) : string * string :=
  let sepIndex := rfind "/" p in
  let dotIndex := rfind "." p in
  if (sepIndex <? dotIndex)%Z && has_other "." (slice p (sepIndex + 1) dotIndex)
  then (slice p 0 dotIndex, slice_from p dotIndex)
  else (p, EmptyString).

(** [os.path.basename] *)
Definition basename (p : string) : string := slice_from p (rfind "/" p + 1).

Definition starts_with_slash (s : string) : bool :=
  match s with String a _ => ascii_eqb a "/" | EmptyString => false end.

Fixpoint ends_with_slash (s : string) : bool :=
  match s with
  | EmptyString => false
  | String a EmptyString => ascii_eqb a "/"
  | String _ s' => ends_with_slash s'
  end.

(** [os.path.join(a, b)] *)
Definition join (a b : string) : string :=
  if starts_with_slash b then b
  else if bool_decide (a = EmptyString) || ends_with_slash a then a +:+ b
  else a +:+ "/" +:+ b.

(** [c.upper()] on ASCII. *)
Definition upper_ascii (c : ascii) : ascii :=
  let n := nat_of_ascii c in
  if (97 <=? n)%nat && (n <=? 122)%nat then ascii_of_nat (n - 32) else c.

Fixpoint upper (s : string) : string :=
  match s with
  | EmptyString => EmptyString
  | String a s' => String (upper_ascii a) (upper s')
  end.

(** [s.split(sep)] for a one-character separator; [cur] is the piece
    being read. *)
Fixpoint split_from (sep : ascii) (cur : string) (s : string) : list string :=
  match s with
  | EmptyString => [cur]
  | String a s' =>
      if ascii_eqb a sep then cur :: split_from sep EmptyString s'
      else split_from sep (cur +:+ String a EmptyString) s'
  end.

Definition split (sep : ascii) (s : string) : list string :=
  split_from sep EmptyString s.

End ospath.

(** ** [string.Template] *)

(** A token value: [None], a [str] or an [int] (the display number). *)
Inductive pyval : Type :=
| PNone
| PStr (s : string)
| PInt (z : Z).

#[global] Instance pyval_eq_dec : EqDecision pyval.
Proof. solve_decision. Defined.

Definition of_option (v : option string) : pyval :=
  match v with None => PNone | Some s => PStr s end.

Definition pystr (v : pyval) : string :=
  match v with
  | PNone => "None"
  | PStr s => s
  | PInt z => pretty z
  end.

Module Template.

(** What the delimiter pattern matches, left to right: an escaped
    delimiter [$$], [$name], [${name}], or a delimiter followed by neither;
    everything else is copied. *)
Inductive segment : Type :=
| Lit (c : ascii)
| Escaped
| Named (n : string)
| Braced (n : string)
| Invalid.

#[global] Instance segment_eq_dec : EqDecision segment.
Proof. solve_decision. Defined.

Inductive mode : Type :=
| Text
| Dollar
| InNamed (acc : string)
| InBraced (acc : string).

(** Identifier characters: [[_a-z][_a-z0-9]*], case ignored. *)
Definition id_start (c : ascii) : bool :=
  let n := nat_of_ascii c in
  ((97 <=? n) && (n <=? 122) || (65 <=? n) && (n <=? 90) || (n =? 95))%nat.

Definition id_char (c : ascii) : bool :=
  let n := nat_of_ascii c in
  id_start c || ((48 <=? n) && (n <=? 57))%nat.

Definition snoc (acc : string) (c : ascii) : string := acc +:+ String c EmptyString.

Definition is_dollar (c : ascii) : bool := ospath.ascii_eqb c "$".

(** Scanning stops at the first invalid placeholder: [substitute] raises
    there. *)
Fixpoint scan (st : mode) (s : string) : list segment :=
  match s with
  | EmptyString =>
      match st with
      | Text => []
      | Dollar => [Invalid]
      | InNamed acc => [Named acc]
      | InBraced _ => [Invalid]
      end
  | String c r =>
      match st with
      | Text => if is_dollar c then scan Dollar r else Lit c :: scan Text r
      | Dollar =>
          if is_dollar c then Escaped :: scan Text r
          else if id_start c then scan (InNamed (String c EmptyString)) r
          else if ospath.ascii_eqb c "{" then scan (InBraced EmptyString) r
          else [Invalid]
      | InNamed acc =>
          if id_char c then scan (InNamed (snoc acc c)) r
          else Named acc :: (if is_dollar c then scan Dollar r else Lit c :: scan Text r)
      | InBraced acc =>
          if ospath.ascii_eqb c "}" then
            if bool_decide (acc = EmptyString) then [Invalid] else Braced acc :: scan Text r
          else if (if bool_decide (acc = EmptyString) then id_start c else id_char c)
          then scan (InBraced (snoc acc c)) r
          else [Invalid]
      end
  end.

(** The replacement of one match: [convert] inside [substitute].  The text
    of the [ValueError] is kept without its line and column. *)
Definition convert (mapping : gmap string pyval) (seg : segment) : result string :=
  match seg with
  | Lit c => Ok (String c EmptyString)
  | Escaped => Ok "$"
  | Named n | Braced n =>
      match mapping !! n with
      | Some v => Ok (pystr v)
      | None => Raise (KeyError n)
      end
  | Invalid => Raise (ValueError "Invalid placeholder in string")
  end.

Fixpoint convert_all (mapping : gmap string pyval) (segs : list segment) : result string :=
  match segs with
  | [] => Ok EmptyString
  | seg :: rest =>
      s ← convert mapping seg;
      r ← convert_all mapping rest;
      Ok (s +:+ r)
  end.

(** [string.Template(template).substitute(mapping)] *)
Definition substitute (template : string) (mapping : gmap string pyval) : result string :=
  convert_all mapping (scan Text template).

End Template.

(** ** The script classes *)

Definition nl : string := String (ascii_of_nat 10) EmptyString.
Definition dq : string := String (ascii_of_nat 34) EmptyString.

Definition FIJI_HOME : string := "/opt/compsci/Fiji/Fiji.app".

Definition is_PNone (v : pyval) : bool :=
  match v with PNone => true | _ => false end.

Definition uninitialized_token (key : string) : exn :=
  Exception ("Can not perform keyword subsitution in script template: uninitialized token "
             +:+ key).

(** [generate_script], the same method in both classes: any token that is
    [None] raises, otherwise the template is substituted.  The dictionary is
    visited in the order of [map_to_list]. *)
Definition generate_script (script_template : string) (_tokens : gmap string pyval)
    : result string :=
  match List.find (fun kv => is_PNone kv.2) (map_to_list _tokens) with
  | Some (key, _) => Raise (uninitialized_token key)
  | None => Template.substitute script_template _tokens
  end.

Module SubmitScript.

Definition MACRO : string := "/opt/compsci/Fiji/macros/kidneyalign.ijm".

(** The template after [textwrap.dedent]. *)
Definition script_template : string :=
  "#!/bin/bash" +:+ nl +:+
  nl +:+
  "module load Python" +:+ nl +:+
  "module load java" +:+ nl +:+
  nl +:+
  "cd $$PBS_O_WORKDIR" +:+ nl +:+
  nl +:+
  "$FIJI_HOME_DIR/ImageJ-linux64  $HEAP -batch $ALIGN_MACRO "
    +:+ dq +:+ "$STACK_IN:$STACK_OUT" +:+ dq +:+ nl +:+
  nl.

(** [SubmitScript.__init__]: the token dictionary. *)
Definition init (input : string) (output : option string) (heap : option string)
    : gmap string pyval :=
  let _tokens : gmap string pyval := ∅ in
  let _tokens := <["STACK_IN" := PStr input]> _tokens in
  let _tokens :=
    if truthy output then <["STACK_OUT" := of_option output]> _tokens
    else
      let '(filename, extension) := ospath.splitext input in
      <["STACK_OUT" := PStr (ospath.basename filename +:+ "-aligned" +:+ extension)]> _tokens in
  let _tokens := <["FIJI_HOME_DIR" := PStr FIJI_HOME]> _tokens in
  let _tokens := <["ALIGN_MACRO" := PStr MACRO]> _tokens in
  if truthy heap then <["HEAP" := PStr ("--heap " +:+ str heap)]> _tokens
  else <["HEAP" := PStr EmptyString]> _tokens.

End SubmitScript.

Module BatchScript.

Definition MACRO : string := "/opt/compsci/Fiji/macros/multi_channel.ijm".

(** The template after [textwrap.dedent]. *)
Definition script_template : string :=
  "#!/bin/bash" +:+ nl +:+
  nl +:+
  "module load java" +:+ nl +:+
  nl +:+
  "cd $$PBS_O_WORKDIR" +:+ nl +:+
  nl +:+
  "#start Xvfb so that our transformation file gets saved correctly" +:+ nl +:+
  "#there seems to be a bug in the MultiStackReg plugin that prevents " +:+ nl +:+
  "#it from saving the transformation file unless an X server is running" +:+ nl +:+
  nl +:+
  "export DISPLAY=:$DNUM " +:+ nl +:+
  "Xvfb $$DISPLAY -auth /dev/null > /dev/null 2>&1 &" +:+ nl +:+
  nl +:+
  "$FIJI_HOME_DIR/ImageJ-linux64  $HEAP -batch $ALIGN_MACRO "
    +:+ dq +:+ "$BACKGROUND_IN:$BACKGROUND_OUT:$GLOMERULI_IN:$GLOMERULI_OUT:$TRANS_OUT:$TRANS_TYPE"
    +:+ dq +:+ nl +:+
  nl.

(** [BatchScript.__init__]: the token dictionary.  The second test is on
    [background_out] again, as in the source. *)
Definition init (background_in glomeruli_in : string)
    (background_out glomeruli_out transformations_out : option string)
    (transformation_type : string) (heap : option string) (display : Z)
    : gmap string pyval :=
  let _tokens : gmap string pyval := ∅ in
  let _tokens := <["BACKGROUND_IN" := PStr background_in]> _tokens in
  let _tokens := <["GLOMERULI_IN" := PStr glomeruli_in]> _tokens in
  let _tokens := <["DNUM" := PInt display]> _tokens in
  let _tokens :=
    if truthy background_out then <["BACKGROUND_OUT" := of_option background_out]> _tokens
    else
      let '(filename, extension) := ospath.splitext background_in in
      <["BACKGROUND_OUT" :=
          PStr (ospath.basename filename +:+ "_aligned" +:+ extension)]> _tokens in
  let _tokens :=
    if truthy background_out then <["GLOMERULI_OUT" := of_option glomeruli_out]> _tokens
    else
      let '(filename, extension) := ospath.splitext glomeruli_in in
      <["GLOMERULI_OUT" :=
          PStr (ospath.basename filename +:+ "_aligned" +:+ extension)]> _tokens in
  let _tokens :=
    if truthy transformations_out
    then <["TRANS_OUT" := of_option transformations_out]> _tokens
    else <["TRANS_OUT" := PStr "transformations.txt"]> _tokens in
  let _tokens := <["TRANS_TYPE" := PStr transformation_type]> _tokens in
  let _tokens := <["FIJI_HOME_DIR" := PStr FIJI_HOME]> _tokens in
  let _tokens := <["ALIGN_MACRO" := PStr MACRO]> _tokens in
  if truthy heap then <["HEAP" := PStr ("--heap " +:+ str heap)]> _tokens
  else <["HEAP" := PStr EmptyString]> _tokens.

End BatchScript.

(** ** Floating point, as far as [int(mem * 1024 * .93)] needs it

    A finite double is a pair [(m, e)] standing for [m * 2^e] with
    [|m| <= 2^53].  Only integers and the constant [.93] are multiplied, so
    subnormal results do not arise; a result too large for a double ends in
    [OverflowError] (from the conversion of the integer, or from [int] applied
    to an infinite product). *)

Module float.

Definition t : Type := Z * Z.

(** [n / 2^shift], rounded to nearest, ties to even ([0 <= n], [0 < shift]). *)
Definition round_nearest_even (n shift : Z) : Z :=
  let q := Z.shiftr n shift in
  let r := n - Z.shiftl q shift in
  let half := 2 ^ (shift - 1) in
  if (half <? r)%Z || ((r =? half)%Z && Z.odd q) then q + 1 else q.

(** The double nearest to [n * 2^e]. *)
Definition nearest (n e : Z) : result t :=
  let a := Z.abs n in
  let bits := if (a =? 0)%Z then 0 else Z.log2 a + 1 in
  let '(m, e') :=
    if (bits <=? 53)%Z then (a, e)
    else (round_nearest_even a (bits - 53), e + (bits - 53)) in
  if (0 <? m)%Z && (1024 <=? Z.log2 m + e')%Z then Raise OverflowError
  else Ok (Z.sgn n * m, e').

Definition of_int (n : Z) : result t := nearest n 0.

Definition mul (x y : t) : result t := nearest (x.1 * y.1) (x.2 + y.2).

(** [int(x)]: truncation toward zero. *)
Definition to_int (x : t) : Z :=
  if (0 <=? x.2)%Z then x.1 * 2 ^ x.2 else Z.quot x.1 (2 ^ (- x.2)).

(** The literal [.93], i.e. [0x1.dc28f5c28f5c3p-1]. *)
Definition point93 : t := (8376695306909123, -53).

End float.

Definition DEFAULT_WALLTIME : string := "4:00:00".
Definition DEFAULT_MEM : Z := 14.
Definition DEFAULT_VMEM : Z := 25.

(** [heap = "{0}".format(int(mem * 1024 * .93))], with its integer value. *)
Definition heap_int (mem : Z) : result Z :=
  x ← float.of_int (mem * 1024);
  y ← float.mul x float.point93;
  Ok (float.to_int y).

Definition heap (mem : Z) : result string :=
  i ← heap_int mem;
  Ok (pretty i).

(** ** Effects: a state and exception monad over the world *)

Definition M (A : Type) : Type := world -> result A * world.

Definition ret {A} (a : A) : M A := fun w => (Ok a, w).

Definition bindM {A B} (m : M A) (k : A -> M B) : M B :=
  fun w =>
    match m w with
    | (Ok a, w') => k a w'
    | (Raise e, w') => (Raise e, w')
    end.

Notation "x <-- m ;; k" := (bindM m (fun x => k))
  (at level 100, m at next level, right associativity).
Notation "m ;;; k" := (bindM m (fun _ => k))
  (at level 100, right associativity).

Definition lift {A} (r : result A) : M A := fun w => (r, w).

Definition gets {A} (f : world -> A) : M A := fun w => (Ok (f w), w).

Definition print (line : string) : M unit :=
  fun w => (Ok tt, with_stdout (stdout w ++ [line]) w).

(** [mkstemp(suffix=...)]: a new empty file; the descriptor is identified
    with the name. *)
Definition mkstemp (suffix : string) : M string :=
  fun w =>
    let name := "/tmp/tmp" +:+ pretty (mkstemp_count w) +:+ suffix in
    (Ok name, with_files (<[name := EmptyString]> (files w)) (S (mkstemp_count w)) w).

(** [os.write(fd, data); os.close(fd)] *)
Definition os_write (fd : string) (data : string) : M unit :=
  fun w => (Ok tt, with_files (<[fd := data]> (files w)) (mkstemp_count w) w).

(** [os.remove(path)] *)
Definition os_remove (path : string) : M unit :=
  fun w =>
    match files w !! path with
    | Some _ => (Ok tt, with_files (delete path (files w)) (mkstemp_count w) w)
    | None => (Raise OSError, w)
    end.

Definition os_listdir (path : string) : M (list string) :=
  fun w => (listdir w path, w).

(** [job.submit()] inside a driver; the descriptor is not used afterwards. *)
Definition submit_job (d : BatchJob) : M (option string) :=
  fun w => let '(r, _, w') := submit d w in (r, w').

(** [for x in l: body(x)] *)
Fixpoint for_each {A} (l : list A) (body : A -> M unit) : M unit :=
  match l with
  | [] => ret tt
  | x :: l' => body x ;;; for_each l' body
  end.

Definition tab : string := String (ascii_of_nat 9) EmptyString.

(** [extension.upper() == ".TIFF" or extension.upper() == ".TIF"] *)
Definition is_tiff (extension : string) : bool :=
  bool_decide (ospath.upper extension = ".TIFF")
  || bool_decide (ospath.upper extension = ".TIF").

(** ** [batch_registration.main]

    The part of [main] after the command line is parsed, from
    [stack_dir = remainder[0]] on; the parsed options are arguments. *)

Module batch_registration.

(** The body of the loop over the directory. *)
Definition process (walltime heap mem vmem stack_dir file : string) : M unit :=
  let '(filename, extension) := ospath.splitext file in
  let input_file := ospath.join stack_dir file in
  if is_tiff extension then
    print ("Creating job to process " +:+ input_file) ;;;
    let batch_script := SubmitScript.init input_file None (Some heap) in
    tmp_filename <-- mkstemp ".sh" ;;
    script <-- lift (generate_script SubmitScript.script_template batch_script) ;;
    os_write tmp_filename script ;;;
    cwd <-- gets getcwd ;;
    let batch_job :=
      BatchJob_init cwd tmp_filename
        (mkArgs (Some ("align_" +:+ file)) (Some walltime) (Some "1:ppn=8") None None None
                (Some "ae") None (Some mem) (Some vmem)) in
    id <-- submit_job batch_job ;;
    print (tab +:+ "Submitted with batch id " +:+ str id) ;;;
    os_remove tmp_filename
  else ret tt.

Definition main (walltime : string) (mem vmem : Z) (stack_dir : string) : M unit :=
  heap <-- lift (heap mem) ;;
  print ("setting heap to " +:+ heap) ;;;
  let mem := pretty mem +:+ "gb" in
  let vmem := pretty vmem +:+ "gb" in
  entries <-- os_listdir stack_dir ;;
  for_each entries (process walltime heap mem vmem stack_dir).

End batch_registration.

(** ** [multi_registration.main]

    The part of [main] after the command line is parsed and the
    transformation checked against [VALID_TRANSFORMATIONS], from
    [stack_dir = remainder[0]] on; the parsed options are arguments. *)

Module multi_registration.

Definition DEFAULT_TRANSFORMATION : string := "Rigid Body".

(** [l[i]] *)
Definition index (l : list string) (i : nat) : result string :=
  match l !! i with
  | Some x => Ok x
  | None => Raise IndexError
  end.

Definition assert (b : bool) : result unit :=
  if b then Ok tt else Raise AssertionError.

(** The body of the first loop: file one directory entry under its
    identifier and channel. *)
Definition add_stack (pairs : gmap string (gmap string string)) (file : string)
    : result (gmap string (gmap string string)) :=
  let '(filename, extension) := ospath.splitext file in
  if is_tiff extension then
    let parts := ospath.split "_" filename in
    id ← index parts 0;
    channel ← index parts 1;
    _ ← assert (bool_decide (channel ∈ ["B"; "G"]));
    let pairs := if bool_decide (is_Some (pairs !! id)) then pairs else <[id := ∅]> pairs in
    let stacks := default ∅ (pairs !! id) in
    _ ← assert (bool_decide (size stacks < 2)%nat);
    if bool_decide (channel = "B")
    then Ok (<[id := <["B" := file]> stacks]> pairs)
    else Ok (<[id := <["G" := file]> stacks]> pairs)
  else Ok pairs.

Fixpoint collect (pairs : gmap string (gmap string string)) (entries : list string)
    : result (gmap string (gmap string string)) :=
  match entries with
  | [] => Ok pairs
  | file :: rest =>
      pairs ← add_stack pairs file;
      collect pairs rest
  end.

(** The body of the second loop, for one identifier; the display number
    advances only when a job is created.  (The loop itself, [process_all],
    visits the identifiers in the order of [map_to_list]; a Python dictionary
    has an order of its own, so the order of the jobs is not claimed.) *)
Definition process (walltime trans heap mem vmem : string)
    (id : string) (stacks : gmap string string) (display_number : Z) : M Z :=
  if bool_decide (size stacks = 1%nat) then
    file <-- lift (if bool_decide (is_Some (stacks !! "B"))
                   then getitem stacks "B" else getitem stacks "G") ;;
    print ("Unable to match " +:+ file +:+ " with another stack.  Skipping...") ;;;
    ret display_number
  else
    b <-- lift (getitem stacks "B") ;;
    g <-- lift (getitem stacks "G") ;;
    print ("Creating job to process " +:+ b +:+ "," +:+ g) ;;;
    let trans_out := id +:+ "_transformations.txt" in
    let batch_script :=
      BatchScript.init b g None None (Some trans_out) trans (Some heap) display_number in
    let display_number := display_number + 1 in
    tmp_filename <-- mkstemp ".sh" ;;
    script <-- lift (generate_script BatchScript.script_template batch_script) ;;
    os_write tmp_filename script ;;;
    cwd <-- gets getcwd ;;
    let batch_job :=
      BatchJob_init cwd tmp_filename
        (mkArgs (Some ("align_" +:+ id)) (Some walltime) (Some "1:ppn=8") None None None
                (Some "ae") None (Some mem) (Some vmem)) in
    batch_id <-- submit_job batch_job ;;
    print (tab +:+ "Submitted with batch id " +:+ str batch_id) ;;;
    os_remove tmp_filename ;;;
    ret display_number.

Fixpoint process_all (walltime trans heap mem vmem : string)
    (items : list (string * gmap string string)) (display_number : Z) : M unit :=
  match items with
  | [] => ret tt
  | (id, stacks) :: rest =>
      display_number <-- process walltime trans heap mem vmem id stacks display_number ;;
      process_all walltime trans heap mem vmem rest display_number
  end.

Definition main (walltime : string) (mem vmem : Z) (trans : string) (stack_dir : string)
    : M unit :=
  print (nl +:+ "MultiStackReg batch submission tool 0.1.0" +:+ nl) ;;;
  heap <-- lift (heap mem) ;;
  print ("setting Fiji Java max heap to " +:+ heap) ;;;
  let mem := pretty mem +:+ "gb" in
  let vmem := pretty vmem +:+ "gb" in
  dir <-- gets (fun w => abspath w stack_dir) ;;
  print ("Processing image stacks in " +:+ dir +:+ nl) ;;;
  entries <-- os_listdir stack_dir ;;
  pairs <-- lift (collect ∅ entries) ;;
  process_all walltime trans heap mem vmem (map_to_list pairs) 1000.

End multi_registration.

(** ** The first half of both [main] functions: the command line

    [getopt.gnu_getopt] and the builtin [int] are library code: the answer
    of the first is an input, the second a parameter.  [usage()] is kept as
    one event. *)

Module cli.

Inductive event : Type :=
| usage_called
| printed (line : string)
| stderr_written (text : string).

Record settings : Type := mkSettings {
  walltime : string;
  mem : Z;
  vmem : Z;
  trans : string
}.

(** What [getopt.gnu_getopt] did: raise [GetoptError], or return the options
    as (option, argument) pairs and the remaining arguments. *)
Inductive getopt_result : Type :=
| GetoptError (err : string)
| Parsed (options : list (string * string)) (remainder : list string).

(** How the first half ends: [return code], or on to the directory. *)
Inductive outcome : Type :=
| Return (code : Z)
| Proceed (s : settings) (stack_dir : string).

Section Options.

Variable int : string -> result Z.

(** [for opt, arg in options: ...] of [batch_registration.main]; [Some code]
    stands for [usage(); return code] inside the loop. *)
Fixpoint batch_options (options : list (string * string)) (s : settings)
    : result (option Z * settings) :=
  match options with
  | [] => Ok (None, s)
  | (opt, arg) :: rest =>
      if bool_decide (opt ∈ ["h"; "--help"]) then Ok (Some 0, s)
      else
        let s := if bool_decide (opt ∈ ["-w"; "--walltime"])
                 then mkSettings arg (mem s) (vmem s) (trans s) else s in
        s ← (if bool_decide (opt ∈ ["-m"; "--mem"])
             then m ← int arg; Ok (mkSettings (walltime s) m (vmem s) (trans s))
             else Ok s);
        s ← (if bool_decide (opt ∈ ["-v"; "--vmem"])
             then v ← int arg; Ok (mkSettings (walltime s) (mem s) v (trans s))
             else Ok s);
        batch_options rest s
  end.

(** The same loop in [multi_registration.main], with the transformation. *)
Fixpoint multi_options (options : list (string * string)) (s : settings)
    : result (option Z * settings) :=
  match options with
  | [] => Ok (None, s)
  | (opt, arg) :: rest =>
      if bool_decide (opt ∈ ["h"; "--help"]) then Ok (Some 0, s)
      else
        let s := if bool_decide (opt ∈ ["-w"; "--walltime"])
                 then mkSettings arg (mem s) (vmem s) (trans s) else s in
        s ← (if bool_decide (opt ∈ ["-m"; "--mem"])
             then m ← int arg; Ok (mkSettings (walltime s) m (vmem s) (trans s))
             else Ok s);
        s ← (if bool_decide (opt ∈ ["-v"; "--vmem"])
             then v ← int arg; Ok (mkSettings (walltime s) (mem s) v (trans s))
             else Ok s);
        let s := if bool_decide (opt ∈ ["-t"; "--transformation"])
                 then mkSettings (walltime s) (mem s) (vmem s) arg else s in
        multi_options rest s
  end.

Definition defaults : settings :=
  mkSettings DEFAULT_WALLTIME DEFAULT_MEM DEFAULT_VMEM
    multi_registration.DEFAULT_TRANSFORMATION.

(** [batch_registration.main] up to [stack_dir = remainder[0]]. *)
Definition batch_front (g : getopt_result) : result (outcome * list event) :=
  match g with
  | GetoptError err => Ok (Return 2, [printed err; usage_called])
  | Parsed options remainder =>
      r ← batch_options options defaults;
      match r.1 with
      | Some code => Ok (Return code, [usage_called])
      | None =>
          match remainder with
          | [stack_dir] => Ok (Proceed r.2 stack_dir, [])
          | _ => Ok (Return 1,
                     [stderr_written (nl +:+ "Error: missing required argument!" +:+ nl);
                      usage_called])
          end
      end
  end.


End Options.

End cli.

(** ** Auxiliary definitions for the statements below *)

(** The ten blocks of [submit] as a table: condition, attribute identifier,
    resource, value. *)
Definition slot : Type := bool * pbs.attr_name * option string * option string.

Definition slots (env : string) (d : BatchJob) : list slot :=
  [ (true, pbs.ATTR_v, None, Some env);
    (truthy (_name d), pbs.ATTR_N, None, _name d);
    (truthy (_walltime d), pbs.ATTR_l, Some "walltime", _walltime d);
    (truthy (_nodes d), pbs.ATTR_l, Some "nodes", _nodes d);
    (truthy (_stdout_path d), pbs.ATTR_o, None, _stdout_path d);
    (truthy (_stderr_path d), pbs.ATTR_o, None, _stderr_path d);
    (truthy (_dependency_list d), pbs.ATTR_depend, None, _dependency_list d);
    (truthy (_mail_options d), pbs.ATTR_m, None, _mail_options d);
    (truthy (_mem d), pbs.ATTR_l, Some "mem", _mem d);
    (truthy (_vmem d), pbs.ATTR_l, Some "vmem", _vmem d) ].

Fixpoint fill_all (ss : list slot) (st : list pbs.attropl * nat)
    : result (list pbs.attropl * nat) :=
  match ss with
  | [] => Ok st
  | (c, n, r, v) :: rest => st ← fill c n r v st; fill_all rest st
  end.

(** The entries a table of blocks writes, in order. *)
Definition entry_of (s : slot) : list pbs.attropl :=
  let '(c, n, r, v) := s in if c then [pbs.mkAttr (Some n) r v] else [].

Definition written (ss : list slot) : list pbs.attropl := flat_map entry_of ss.

(** The three calls of one [submit]. *)
Definition submit_calls (w : world) (d : BatchJob) (attropl : list pbs.attropl)
    : list pbs.call :=
  let connection := connect_reply w (count_calls pbs.is_connect (pbs_calls w)) in
  [pbs.pbs_connect (pbs_default w) connection;
   pbs.pbs_submit connection attropl (job_script d);
   pbs.pbs_disconnect connection].

(** What the manager will answer to the next [pbs_submit]. *)
Definition next_reply (w : world) : option string * (Z * string) :=
  submit_reply w (count_calls pbs.is_submit (pbs_calls w)).

(** The variables [generate_env] reads are all defined. *)
Definition env_defined (w : world) : Prop :=
  is_Some (environ w !! "PATH") /\ is_Some (environ w !! "HOME")
  /\ is_Some (environ w !! "LOGNAME").

(** The placeholders of a scanned template, and the text it turns into when
    [f] gives the replacement of each placeholder. *)
Fixpoint placeholders (segs : list Template.segment) : list string :=
  match segs with
  | [] => []
  | (Template.Named n | Template.Braced n) :: rest => n :: placeholders rest
  | _ :: rest => placeholders rest
  end.

Definition is_valid (seg : Template.segment) : bool :=
  match seg with Template.Invalid => false | _ => true end.

Fixpoint render (f : string -> string) (segs : list Template.segment) : string :=
  match segs with
  | [] => EmptyString
  | Template.Lit c :: rest => String c (render f rest)
  | Template.Escaped :: rest => String "$" (render f rest)
  | (Template.Named n | Template.Braced n) :: rest => f n +:+ render f rest
  | Template.Invalid :: rest => render f rest
  end.

(** [str(tokens[key])] *)
Definition token (tokens : gmap string pyval) (key : string) : string :=
  pystr (default PNone (tokens !! key)).

(** The single-stack script with its five placeholders filled in. *)
Definition submit_script_text (fiji_home_dir heap align_macro stack_in stack_out : string)
    : string :=
  "#!/bin/bash" +:+ nl +:+
  nl +:+
  "module load Python" +:+ nl +:+
  "module load java" +:+ nl +:+
  nl +:+
  "cd $PBS_O_WORKDIR" +:+ nl +:+
  nl +:+
  fiji_home_dir +:+ "/ImageJ-linux64  " +:+ heap +:+ " -batch " +:+ align_macro +:+ " "
    +:+ dq +:+ stack_in +:+ ":" +:+ stack_out +:+ dq +:+ nl +:+
  nl.

(** The paired script with its ten placeholders filled in. *)
Definition batch_script_text
    (dnum fiji_home_dir heap align_macro background_in background_out
     glomeruli_in glomeruli_out trans_out trans_type : string) : string :=
  "#!/bin/bash" +:+ nl +:+
  nl +:+
  "module load java" +:+ nl +:+
  nl +:+
  "cd $PBS_O_WORKDIR" +:+ nl +:+
  nl +:+
  "#start Xvfb so that our transformation file gets saved correctly" +:+ nl +:+
  "#there seems to be a bug in the MultiStackReg plugin that prevents " +:+ nl +:+
  "#it from saving the transformation file unless an X server is running" +:+ nl +:+
  nl +:+
  "export DISPLAY=:" +:+ dnum +:+ " " +:+ nl +:+
  "Xvfb $DISPLAY -auth /dev/null > /dev/null 2>&1 &" +:+ nl +:+
  nl +:+
  fiji_home_dir +:+ "/ImageJ-linux64  " +:+ heap +:+ " -batch " +:+ align_macro +:+ " "
    +:+ dq +:+ background_in +:+ ":" +:+ background_out +:+ ":" +:+ glomeruli_in +:+ ":"
    +:+ glomeruli_out +:+ ":" +:+ trans_out +:+ ":" +:+ trans_type +:+ dq +:+ nl +:+
  nl.

Definition submit_script_keys : list string :=
  ["FIJI_HOME_DIR"; "HEAP"; "ALIGN_MACRO"; "STACK_IN"; "STACK_OUT"].

Definition batch_script_keys : list string :=
  ["DNUM"; "FIJI_HOME_DIR"; "HEAP"; "ALIGN_MACRO"; "BACKGROUND_IN"; "BACKGROUND_OUT";
   "GLOMERULI_IN"; "GLOMERULI_OUT"; "TRANS_OUT"; "TRANS_TYPE"].

(** The assignments [BatchJob.__init__] makes, as setters. *)
Definition init_setters (a : init_args) : list setter :=
  [SetName (arg_name a); SetWalltime (arg_walltime a); SetNodes (arg_nodes a);
   SetStdoutPath (arg_stdout a); SetStderrPath (arg_stderr a);
   SetWorkdir (arg_workdir a); SetMailOptions (arg_mail_options a);
   SetDependencyList (arg_dependency_list a); SetMem (arg_mem a); SetVmem (arg_vmem a)].

(** A setter that does not assign the empty string to a counted attribute. *)
Definition assigns_no_empty (o : setter) : Prop :=
  match o with
  | SetWorkdir _ => True
  | SetName v | SetWalltime v | SetNodes v | SetStderrPath v | SetStdoutPath v
  | SetDependencyList v | SetMailOptions v | SetMem v | SetVmem v =>
      v ≠ Some EmptyString
  end.

(** The attribute a setter assigns, numbered in the order of the class body. *)
Definition setter_attr (o : setter) : nat :=
  match o with
  | SetName _ => 0
  | SetWalltime _ => 1
  | SetNodes _ => 2
  | SetStderrPath _ => 3
  | SetStdoutPath _ => 4
  | SetDependencyList _ => 5
  | SetWorkdir _ => 6
  | SetMailOptions _ => 7
  | SetMem _ => 8
  | SetVmem _ => 9
  end%nat.

(** [c in s] for a character. *)
Fixpoint contains (c : ascii) (s : string) : bool :=
  match s with
  | EmptyString => false
  | String a s' => ospath.ascii_eqb a c || contains c s'
  end.

(** A path prefix: nothing, or a directory part ending in a slash. *)
Definition is_dir_prefix (pre : string) : Prop :=
  pre = EmptyString \/ exists pre', pre = pre' +:+ "/".

(** A file-name stem and an extension (without its dot) in the sense of
    [os.path.splitext]: no slash in either, no dot in the extension, and a
    stem that is not made of dots only. *)
Definition is_stem_ext (stem ext : string) : Prop :=
  contains "/" stem = false /\ ospath.has_other "." stem = true
  /\ contains "/" ext = false /\ contains "." ext = false.

(** The directory entries the drivers act on. *)
Definition tiff_entries (entries : list string) : list string :=
  filter (fun file => is_tiff (ospath.splitext file).2 = true) entries.

(** The manager accepts every job. *)
Definition accepts_all (w : world) : Prop :=
  forall n, (submit_reply w n).2.1 = 0.

(** The services of the world a driver relies on from one job to the next. *)
Definition same_services (w w' : world) : Prop :=
  environ w' = environ w /\ getcwd w' = getcwd w /\ getfqdn w' = getfqdn w
  /\ pbs_default w' = pbs_default w /\ connect_reply w' = connect_reply w
  /\ submit_reply w' = submit_reply w.

(** The groups the pairing loop can build: one background stack, one
    glomeruli stack, or one of each. *)
Definition group_shape (stacks : gmap string string) : Prop :=
  (exists b, stacks = {["B" := b]})
  \/ (exists g, stacks = {["G" := g]})
  \/ (exists b g, stacks = <["B" := b]> {["G" := g]}).

(** The identifiers with both channels, among the items of the second loop. *)
Definition complete_pairs (items : list (string * gmap string string))
    : list (string * gmap string string) :=
  filter (fun item => size item.2 = 2%nat) items.

(** The value last given to [workdir]: by the latest assignment among [os],
    or else by the constructor argument. *)
Definition workdir_assigned (os : list setter) (initial : option string) : option string :=
  fold_left (fun v o => match o with SetWorkdir v' => v' | _ => v end) os initial.

(** ** Concrete inputs *)

Module Examples.

Definition full_environ : gmap string string :=
  <["PATH" := "/usr/bin:/bin"]> (<["HOME" := "/home/user"]> (<["LOGNAME" := "user"]> ∅)).

(** An environment without [LOGNAME], as under a bare daemon or cron. *)
Definition environ_without_logname : gmap string string :=
  <["PATH" := "/usr/bin:/bin"]> (<["HOME" := "/home/user"]> ∅).

Definition directory : list string := ["K1_B.tif"; "K1_G.tif"; "K2_B.tif"].

(** A manager that accepts every job. *)
Definition accepting : world :=
  mkWorld full_environ "/work" "login.cluster" "torque"
    (fun n => Z.of_nat n + 1)
    (fun n => (Some (pretty n +:+ ".torque"), (0, EmptyString)))
    [] (fun _ => Ok directory) (fun p => "/work/" +:+ p) ∅ 0 [].

(** A manager that rejects every job with code 15001. *)
Definition rejecting : world :=
  mkWorld full_environ "/work" "login.cluster" "torque"
    (fun n => Z.of_nat n + 1)
    (fun n => (None, (15001, "Unknown Job Id")))
    [] (fun _ => Ok directory) (fun p => "/work/" +:+ p) ∅ 0 [].

Definition no_logname : world :=
  mkWorld environ_without_logname "/work" "login.cluster" "torque"
    (fun n => Z.of_nat n + 1)
    (fun n => (Some (pretty n +:+ ".torque"), (0, EmptyString)))
    [] (fun _ => Ok directory) (fun p => "/work/" +:+ p) ∅ 0 [].

(** A job with a name and both output paths. *)
Definition job : BatchJob :=
  BatchJob_init "/work" "/tmp/job.sh"
    (mkArgs (Some "align") None None (Some "job.err") (Some "job.out") None
            None None None None).

(** The grouping of [directory]: one pair for K1, a lone stack for K2. *)
Definition pairs : gmap string (gmap string string) :=
  <["K1" := <["B" := "K1_B.tif"]> (<["G" := "K1_G.tif"]> ∅)]>
    (<["K2" := <["B" := "K2_B.tif"]> ∅]> ∅).

End Examples.

(** The attribute array of a descriptor whose count covers its set
    attributes: the written slots, then blank ones. *)
Definition built (env : string) (d : BatchJob) : list pbs.attropl :=
  written (slots env d)
  ++ replicate (Z.to_nat (attribute_count d - num_set d)) pbs.blank.

(** The arguments both drivers give to [BatchJob]. *)
Definition driver_args (name walltime mem vmem : string) : init_args :=
  mkArgs (Some name) (Some walltime) (Some "1:ppn=8") None None None
         (Some "ae") None (Some mem) (Some vmem).

(** The name [mkstemp] will hand out next. *)
Definition next_tmp (w : world) : string :=
  "/tmp/tmp" +:+ pretty (mkstemp_count w) +:+ ".sh".

(** The world after one job: [line] printed, the script written to the
    temporary file, the three calls made. *)
Definition after_submit (w : world) (line script : string) (d : BatchJob)
    (attropl : list pbs.attropl) : world :=
  with_pbs_calls (pbs_calls w ++ submit_calls w d attropl)
    (with_files (<[next_tmp w := script]> (<[next_tmp w := EmptyString]> (files w)))
       (S (mkstemp_count w))
       (with_stdout (stdout w ++ [line]) w)).

(** ... and, the job accepted, its id printed and the file removed. *)
Definition after_remove (w : world) (line script : string) (d : BatchJob)
    (attropl : list pbs.attropl) : world :=
  let w3 := after_submit w line script d attropl in
  with_files (delete (next_tmp w) (files w3)) (mkstemp_count w3)
    (with_stdout
       (stdout w3 ++ [tab +:+ "Submitted with batch id " +:+ str (next_reply w).1]) w3).

Definition unmatched_line (file : string) : string :=
  "Unable to match " +:+ file +:+ " with another stack.  Skipping...".

(** * Properties *)

(** ** Facts about string concatenation *)

Lemma string_app_nil_r (s : string) : s +:+ EmptyString = s.
Proof.
  induction s as [|a s IH]; [reflexivity|].
  change (String a (s +:+ EmptyString) = String a s). by rewrite IH.
Qed.

Lemma string_app_assoc (a b c : string) : (a +:+ b) +:+ c = a +:+ (b +:+ c).
Proof.
  induction a as [|x a IH]; [reflexivity|].
  change (String x ((a +:+ b) +:+ c) = String x (a +:+ (b +:+ c))). by rewrite IH.
Qed.

(** ** The attribute count *)

Section Counting.

Variable cwd : string.

(** A setter never lets the count fall behind the number of attributes
    that [submit] will write. *)
Lemma count_after_ge (old new : option string) (count : Z) :
  b2z (truthy new) - b2z (truthy old) <= count_after old new count - count.
Proof.
  unfold count_after.
  destruct old as [[|? ?]|], new as [[|? ?]|]; simpl; lia.
Qed.

(** Clearing with [None] and setting a non-empty value are tracked exactly. *)
Lemma count_after_exact (old new : option string) (count : Z) :
  new ≠ Some EmptyString ->
  count_after old new count - count = b2z (truthy new) - b2z (truthy old).
Proof.
  unfold count_after.
  destruct old as [[|? ?]|], new as [[|? ?]|]; simpl; intros H; try lia; congruence.
Qed.

Lemma num_set_unfold (d : BatchJob) :
  num_set d =
  b2z (truthy (_name d)) + (b2z (truthy (_walltime d)) + (b2z (truthy (_nodes d)) +
  (b2z (truthy (_stdout_path d)) + (b2z (truthy (_stderr_path d)) +
  (b2z (truthy (_dependency_list d)) + (b2z (truthy (_mail_options d)) +
  (b2z (truthy (_mem d)) + (b2z (truthy (_vmem d)) + 0)))))))).
Proof. reflexivity. Qed.

Lemma setter_slack (o : setter) (d : BatchJob) :
  attribute_count d - num_set d
  <= attribute_count (apply_setter cwd o d) - num_set (apply_setter cwd o d).
Proof.
  rewrite !num_set_unfold.
  destruct o as [v|v|v|v|v|v|v|v|v|v]; simpl;
    try match goal with
        | |- context [count_after ?old v ?c] => pose proof (count_after_ge old v c)
        end; lia.
Qed.

Lemma init_slack (script : string) (a : init_args) :
  num_set (BatchJob_init cwd script a) <= attribute_count (BatchJob_init cwd script a).
Proof.
  unfold BatchJob_init.
  set (d0 := mkBatchJob _ _ _ _ _ _ _ _ _ _ 0 script None).
  assert (H0 : 0 <= attribute_count d0 - num_set d0) by (vm_compute; discriminate).
  pose proof (setter_slack (SetName (arg_name a)) d0) as H1. unfold apply_setter in H1.
  set (d1 := set_name _ d0) in *.
  pose proof (setter_slack (SetWalltime (arg_walltime a)) d1) as H2. unfold apply_setter in H2.
  set (d2 := set_walltime _ d1) in *.
  pose proof (setter_slack (SetNodes (arg_nodes a)) d2) as H3. unfold apply_setter in H3.
  set (d3 := set_nodes _ d2) in *.
  pose proof (setter_slack (SetStdoutPath (arg_stdout a)) d3) as H4. unfold apply_setter in H4.
  set (d4 := set_stdout_path _ d3) in *.
  pose proof (setter_slack (SetStderrPath (arg_stderr a)) d4) as H5. unfold apply_setter in H5.
  set (d5 := set_stderr_path _ d4) in *.
  pose proof (setter_slack (SetWorkdir (arg_workdir a)) d5) as H6. unfold apply_setter in H6.
  set (d6 := set_workdir _ _ d5) in *.
  assert (H7 : attribute_count d6 - num_set d6
               = attribute_count (set_job_id None d6) - num_set (set_job_id None d6))
    by reflexivity.
  set (d7 := set_job_id None d6) in *.
  pose proof (setter_slack (SetMailOptions (arg_mail_options a)) d7) as H8. unfold apply_setter in H8.
  set (d8 := set_mail_options _ d7) in *.
  pose proof (setter_slack (SetDependencyList (arg_dependency_list a)) d8) as H9.
  unfold apply_setter in H9.
  set (d9 := set_dependency_list _ d8) in *.
  pose proof (setter_slack (SetMem (arg_mem a)) d9) as H10. unfold apply_setter in H10.
  set (d10 := set_mem _ d9) in *.
  pose proof (setter_slack (SetVmem (arg_vmem a)) d10) as H11. unfold apply_setter in H11.
  lia.
Qed.

(** The count is an upper bound of the number of set attributes on every
    descriptor a program can hold. *)
Lemma reachable_count_ge (d : BatchJob) :
  reachable cwd d -> num_set d <= attribute_count d.
Proof.
  induction 1 as [script a | o d Hd IH].
  - apply init_slack.
  - pose proof (setter_slack o d). lia.
Qed.

Lemma num_set_nonneg (d : BatchJob) : 0 <= num_set d.
Proof.
  rewrite num_set_unfold.
  repeat match goal with |- context [truthy ?v] => destruct (truthy v) end; simpl; lia.
Qed.

Lemma setter_exact (o : setter) (d : BatchJob) :
  assigns_no_empty o ->
  attribute_count (apply_setter cwd o d) - num_set (apply_setter cwd o d)
  = attribute_count d - num_set d.
Proof.
  intros Ho. rewrite !num_set_unfold.
  destruct o as [v|v|v|v|v|v|v|v|v|v]; simpl in *;
    try match goal with
        | |- context [count_after ?old v ?c] =>
            pose proof (count_after_exact old v c Ho)
        end; lia.
Qed.

Lemma setters_exact (os : list setter) (d : BatchJob) :
  Forall assigns_no_empty os ->
  attribute_count (apply_setters cwd os d) - num_set (apply_setters cwd os d)
  = attribute_count d - num_set d.
Proof.
  intros Hos. revert d. induction Hos as [|o os Ho _ IH]; intros d; [reflexivity|].
  unfold apply_setters in *. cbn [fold_left]. rewrite IH. by apply setter_exact.
Qed.

Lemma set_job_id_None (d : BatchJob) :
  job_id d = None -> set_job_id None d = d.
Proof. destruct d. cbn. by intros ->. Qed.

Lemma init_as_setters (script : string) (a : init_args) :
  BatchJob_init cwd script a
  = apply_setters cwd (init_setters a)
      (mkBatchJob None None None None None None None None None None 0 script None).
Proof.
  unfold BatchJob_init, apply_setters, init_setters. cbn [fold_left apply_setter].
  by rewrite set_job_id_None.
Qed.

(** As long as no counted attribute is ever assigned the empty string,
    neither by the constructor nor later, the count is exactly the number of
    set attributes. *)
Lemma count_exact_without_empty (script : string) (a : init_args) (os : list setter) :
  Forall assigns_no_empty (init_setters a ++ os) ->
  attribute_count (apply_setters cwd os (BatchJob_init cwd script a))
  = num_set (apply_setters cwd os (BatchJob_init cwd script a)).
Proof.
  intros Hall. apply Forall_app in Hall as [Ha Hos].
  pose proof (setters_exact os (BatchJob_init cwd script a) Hos) as H1.
  pose proof (setters_exact (init_setters a)
                (mkBatchJob None None None None None None None None None None
                   0 script None) Ha) as H2.
  rewrite <- init_as_setters in H2.
  assert (H3 : num_set (mkBatchJob None None None None None None None None None None
                          0 script None) = 0) by reflexivity.
  cbn [attribute_count] in H2. lia.
Qed.

End Counting.

(** ** The attribute array built by [submit] *)

Section Attropl.

Lemma build_attropl_fill_all (w : world) (d : BatchJob) :
  0 <= attribute_count d ->
  build_attropl w d =
  (env ← generate_env w d;
   fill_all (slots env d) (pbs.new_attropl (attribute_count d + 1), 0%nat)).
Proof.
  intros Hc. unfold build_attropl, pbs.new_attropl.
  replace (Z.to_nat (attribute_count d + 1)) with (S (Z.to_nat (attribute_count d)))
    by lia.
  cbn [replicate]. unfold attropl_set at 1. cbn [lookup list_lookup].
  cbn [mbind result_bind bind].
  destruct (generate_env w d) as [env|e]; [|reflexivity].
  cbn [mbind result_bind bind fill_all slots fill fst snd].
  unfold attropl_set. cbn [lookup list_lookup insert list_insert].
  unfold pbs.blank. cbn [pbs.resource]. unfold mbind, result_bind, bind.
  repeat match goal with
         | |- match ?m with Ok _ => _ | Raise _ => _ end = _ => destruct m; [|reflexivity]
         end.
  by destruct (fill _ _ _ _ _).
Qed.

Lemma fill_blank (c : bool) (n : pbs.attr_name) (r v : option string)
    (pre : list pbs.attropl) (k : nat) :
  (length (entry_of (c, n, r, v)) <= k)%nat ->
  fill c n r v (pre ++ replicate k pbs.blank, length pre) =
  Ok ((pre ++ entry_of (c, n, r, v))
        ++ replicate (k - length (entry_of (c, n, r, v))) pbs.blank,
      length (pre ++ entry_of (c, n, r, v))).
Proof.
  intros Hk. unfold fill, entry_of. destruct c; simpl in *.
  - destruct k as [|k]; [lia|]. unfold attropl_set. simpl.
    rewrite lookup_app_r by lia. rewrite Nat.sub_diag. simpl.
    unfold mbind, result_bind, bind. f_equal. f_equal.
    + rewrite insert_app_r_alt by lia. rewrite Nat.sub_diag. simpl.
      rewrite Nat.sub_0_r, <- app_assoc. simpl. by destruct r.
    + rewrite length_app. simpl. lia.
  - rewrite app_nil_r, Nat.sub_0_r. reflexivity.
Qed.

Lemma fill_all_blank (ss : list slot) (pre : list pbs.attropl) (k : nat) :
  (length (written ss) <= k)%nat ->
  fill_all ss (pre ++ replicate k pbs.blank, length pre) =
  Ok ((pre ++ written ss) ++ replicate (k - length (written ss)) pbs.blank,
      length (pre ++ written ss)).
Proof.
  revert pre k. induction ss as [|[[[c n] r] v] ss IH]; intros pre k Hk.
  - simpl. by rewrite app_nil_r, Nat.sub_0_r.
  - unfold written in Hk. cbn [flat_map] in Hk. rewrite length_app in Hk.
    fold (written ss) in Hk.
    cbn [fill_all]. rewrite fill_blank by lia.
    unfold mbind, result_bind, bind.
    rewrite IH by lia.
    unfold written. cbn [flat_map]. fold (written ss).
    rewrite (length_app (entry_of (c, n, r, v)) (written ss)).
    by rewrite Nat.sub_add_distr, !app_assoc.
Qed.

Lemma length_written_slots (env : string) (d : BatchJob) :
  Z.of_nat (length (written (slots env d))) = 1 + num_set d.
Proof.
  rewrite num_set_unfold. unfold written, slots. simpl.
  repeat match goal with |- context [truthy ?v] => destruct (truthy v) end;
    reflexivity.
Qed.

(** On a descriptor whose count covers the set attributes, [submit] fills
    the array from the front and leaves the rest blank. *)
Lemma build_attropl_written (w : world) (d : BatchJob) (env : string) :
  num_set d <= attribute_count d ->
  generate_env w d = Ok env ->
  build_attropl w d =
  Ok (written (slots env d)
        ++ replicate (Z.to_nat (attribute_count d - num_set d)) pbs.blank,
      length (written (slots env d))).
Proof.
  intros Hc Henv.
  pose proof (length_written_slots env d) as Hl.
  pose proof (num_set_nonneg d) as H0.
  rewrite build_attropl_fill_all, Henv by lia.
  unfold mbind, result_bind, bind.
  unfold pbs.new_attropl.
  change (replicate ?k pbs.blank, 0%nat)
    with (@nil pbs.attropl ++ replicate k pbs.blank, length (@nil pbs.attropl)).
  rewrite fill_all_blank by lia. rewrite !app_nil_l.
  replace (Z.to_nat (attribute_count d + 1) - length (written (slots env d)))%nat
    with (Z.to_nat (attribute_count d - num_set d)) by lia.
  reflexivity.
Qed.

Lemma generate_env_defined (w : world) (d : BatchJob) :
  env_defined w -> exists env, generate_env w d = Ok env.
Proof.
  intros ([p Hp] & [h Hh] & [l Hl]). unfold generate_env, getitem.
  rewrite Hp, Hh, Hl. simpl. eauto.
Qed.

End Attropl.

(** ** Claims about the descriptor and its attribute array *)

(** C1 (the code departs from the claim): a named job whose name is then set
    to the empty string keeps an attribute count of 1 although none of its
    optional attributes is non-empty any more; the setter only decrements on
    [None]. *)
Theorem C1_empty_string_keeps_count :
  let d0 := BatchJob_init "/work" "/tmp/job.sh"
              (mkArgs (Some "align") None None None None None None None None None) in
  let d1 := set_name (Some EmptyString) d0 in
  let d2 := set_name (Some "again") d1 in
  (attribute_count d0 = 1 /\ num_set d0 = 1)
  /\ (attribute_count d1 = 1 /\ num_set d1 = 0)
  /\ (attribute_count d2 = 2 /\ num_set d2 = 1).
Proof. vm_compute. repeat split. Qed.

Lemma generate_env_raises (w : world) (d : BatchJob) (e : exn) :
  generate_env w d = Raise e -> exists k, e = KeyError k /\ environ w !! k = None.
Proof.
  unfold generate_env, getitem.
  destruct (environ w !! "PATH") eqn:Hp; simpl; [|intros [= <-]; eauto].
  destruct (environ w !! "HOME") eqn:Hh; simpl; [|intros [= <-]; eauto].
  destruct (environ w !! "LOGNAME") eqn:Hl; simpl; [|intros [= <-]; eauto].
  discriminate.
Qed.

(** C2: on every descriptor built by the constructor and the setters,
    [submit] allocates [attribute_count + 1] slots, writes one slot for the
    environment and one per non-empty optional attribute, and the write index
    stays within the allocation; it never raises [IndexError], and it does
    build the array whenever the environment string can be made. *)
Theorem C2_writes_within_capacity (cwd : string) (w : world) (d : BatchJob) :
  reachable cwd d ->
  build_attropl w d ≠ Raise IndexError
  /\ (env_defined w -> is_ok (build_attropl w d) = true)
  /\ (forall attropl idx,
        build_attropl w d = Ok (attropl, idx) ->
        Z.of_nat (length attropl) = attribute_count d + 1
        /\ Z.of_nat idx = 1 + num_set d
        /\ (idx <= length attropl)%nat).
Proof.
  intros Hd. pose proof (reachable_count_ge cwd d Hd) as Hc.
  pose proof (num_set_nonneg d) as H0.
  destruct (generate_env w d) as [env|e] eqn:Henv.
  - rewrite (build_attropl_written w d env Hc Henv).
    pose proof (length_written_slots env d) as Hl.
    remember (written (slots env d)) as ws eqn:Hws. clear Hws.
    split; [discriminate|]. split; [reflexivity|].
    intros attropl idx [= <- <-]. rewrite length_app, length_replicate. lia.
  - assert (Hb : build_attropl w d = Raise e)
      by (rewrite build_attropl_fill_all, Henv by lia; reflexivity).
    rewrite Hb. destruct (generate_env_raises w d e Henv) as (k & -> & Hk).
    split; [discriminate|]. split; [|discriminate].
    intros Hdef. destruct (generate_env_defined w d Hdef) as [env Henv'].
    congruence.
Qed.

Lemma C2_writes_within_capacity_witness :
  reachable "/work" Examples.job
  /\ build_attropl Examples.accepting Examples.job ≠ Raise IndexError.
Proof.
  split; [apply reach_init|].
  apply (C2_writes_within_capacity "/work" Examples.accepting Examples.job).
  apply reach_init.
Defined.

Lemma written_never_error_path (ss : list slot) :
  Forall (fun s => s.1.1.2 ≠ pbs.ATTR_e) ss ->
  Forall (fun e => pbs.name e ≠ Some pbs.ATTR_e) (written ss).
Proof.
  intros H. unfold written. apply Forall_flat_map.
  eapply Forall_impl; [exact H|].
  intros [[[c n] r] v] Hn. simpl in *. destruct c; constructor; [|constructor].
  simpl. congruence.
Qed.

(** C8: when both paths are set, [submit] writes the standard-output path
    and, in the next slot, the standard-error path, both under [ATTR_o]; no
    slot of the array is named [ATTR_e]. *)
Theorem C8_stderr_under_stdout_name (cwd : string) (w : world) (d : BatchJob) (env : string) :
  reachable cwd d ->
  generate_env w d = Ok env ->
  truthy (_stdout_path d) = true ->
  truthy (_stderr_path d) = true ->
  exists attropl idx i,
    build_attropl w d = Ok (attropl, idx)
    /\ attropl !! i = Some (pbs.mkAttr (Some pbs.ATTR_o) None (_stdout_path d))
    /\ attropl !! S i = Some (pbs.mkAttr (Some pbs.ATTR_o) None (_stderr_path d))
    /\ Forall (fun e => pbs.name e ≠ Some pbs.ATTR_e) attropl.
Proof.
  intros Hd Henv Hout Herr.
  rewrite (build_attropl_written w d env (reachable_count_ge cwd d Hd) Henv).
  eexists _, _,
    (1 + length (written [(truthy (_name d), pbs.ATTR_N, None, _name d);
                          (truthy (_walltime d), pbs.ATTR_l, Some "walltime", _walltime d);
                          (truthy (_nodes d), pbs.ATTR_l, Some "nodes", _nodes d)]))%nat.
  split; [reflexivity|].
  split; [|split].
  - unfold written, slots. cbn [flat_map entry_of]. rewrite Hout, Herr.
    destruct (truthy (_name d)), (truthy (_walltime d)), (truthy (_nodes d)); reflexivity.
  - unfold written, slots. cbn [flat_map entry_of]. rewrite Hout, Herr.
    destruct (truthy (_name d)), (truthy (_walltime d)), (truthy (_nodes d)); reflexivity.
  - apply Forall_app. split.
    + apply written_never_error_path. unfold slots.
      repeat (constructor; [simpl; discriminate|]). constructor.
    + apply Forall_replicate. unfold pbs.blank. simpl. discriminate.
Qed.

Lemma C8_stderr_under_stdout_name_witness :
  exists attropl idx i,
    build_attropl Examples.accepting Examples.job = Ok (attropl, idx)
    /\ attropl !! i = Some (pbs.mkAttr (Some pbs.ATTR_o) None (Some "job.out"))
    /\ attropl !! S i = Some (pbs.mkAttr (Some pbs.ATTR_o) None (Some "job.err"))
    /\ Forall (fun e => pbs.name e ≠ Some pbs.ATTR_e) attropl.
Proof.
  apply (C8_stderr_under_stdout_name "/work" Examples.accepting Examples.job
           "PBS_O_WORKDIR=/work,PBS_O_HOST=login.cluster,PBS_O_PATH=/usr/bin:/bin,PBS_O_HOME=/home/user,PBS_O_LOGNAME=user").
  - apply reach_init.
  - vm_compute. reflexivity.
  - reflexivity.
  - reflexivity.
Defined.

(** ** Claims about [submit] and [generate_env] *)

Lemma count_calls_app (p : pbs.call -> bool) (cs cs' : list pbs.call) :
  count_calls p (cs ++ cs') = (count_calls p cs + count_calls p cs')%nat.
Proof. unfold count_calls. by rewrite filter_app, length_app. Qed.

(** Once the attribute array is built, [submit] makes exactly the three
    calls connect, submit, disconnect and turns the manager's error code into
    its result. *)
Lemma submit_built (w : world) (d : BatchJob) (attropl : list pbs.attropl) (idx : nat) :
  build_attropl w d = Ok (attropl, idx) ->
  submit d w =
  (if bool_decide ((next_reply w).2.1 ≠ 0)
   then Raise (Exception (error_message (next_reply w).2.1 (next_reply w).2.2))
   else Ok (next_reply w).1,
   set_job_id (next_reply w).1 d,
   with_pbs_calls (pbs_calls w ++ submit_calls w d attropl) w).
Proof.
  intros Hb. unfold submit. rewrite Hb. cbn [pbs_calls with_pbs_calls submit_reply].
  rewrite count_calls_app.
  change (count_calls pbs.is_submit [pbs.pbs_connect _ _]) with 0%nat.
  rewrite Nat.add_0_r. fold (next_reply w).
  destruct (next_reply w) as [jid [e e_msg]]. cbn [fst snd].
  rewrite <- !app_assoc. cbn [app]. unfold submit_calls.
  cbn [connect_reply pbs_default with_pbs_calls].
  destruct (bool_decide (e ≠ 0)); reflexivity.
Qed.

(** C5: on a call that reaches the manager, a non-zero error code makes
    [submit] raise an exception whose text is the code in decimal, a colon and
    a space, and the manager's message, instead of returning the job id; with
    code zero the job id is returned; either way the calls made are connect,
    submit and one disconnect, in this order. *)
Theorem C5_error_code_and_disconnect (w : world) (d : BatchJob)
    (attropl : list pbs.attropl) (idx : nat) :
  build_attropl w d = Ok (attropl, idx) ->
  let e := (next_reply w).2.1 in
  let e_msg := (next_reply w).2.2 in
  pbs_calls (submit d w).2 = pbs_calls w ++ submit_calls w d attropl
  /\ count_calls pbs.is_disconnect (pbs_calls (submit d w).2)
     = S (count_calls pbs.is_disconnect (pbs_calls w))
  /\ (e ≠ 0 -> (submit d w).1.1 = Raise (Exception (pretty e +:+ ": " +:+ e_msg)))
  /\ (e = 0 -> (submit d w).1.1 = Ok (next_reply w).1).
Proof.
  intros Hb e e_msg. rewrite (submit_built w d attropl idx Hb). cbn [fst snd].
  split; [reflexivity|]. split.
  - cbn [pbs_calls with_pbs_calls]. rewrite count_calls_app.
    change (count_calls pbs.is_disconnect (submit_calls w d attropl)) with 1%nat. lia.
  - fold e e_msg. split; intros He.
    + by rewrite bool_decide_true.
    + by rewrite bool_decide_false by (intros ?; contradiction).
Qed.

Lemma C5_error_code_and_disconnect_witness :
  (submit Examples.job Examples.rejecting).1.1
    = Raise (Exception "15001: Unknown Job Id")
  /\ count_calls pbs.is_disconnect (pbs_calls (submit Examples.job Examples.rejecting).2)
     = 1%nat.
Proof.
  destruct (C5_error_code_and_disconnect Examples.rejecting Examples.job
              (fst (match build_attropl Examples.rejecting Examples.job with
                    | Ok st => st
                    | Raise _ => ([], 0%nat)
                    end))
              4%nat) as (_ & Hcount & Herr & _).
  - vm_compute. reflexivity.
  - split.
    + rewrite Herr; [reflexivity | discriminate].
    + exact Hcount.
Defined.

Lemma generate_env_absent (w : world) (d : BatchJob) (k : string) :
  k ∈ ["PATH"; "HOME"; "LOGNAME"] ->
  environ w !! k = None ->
  exists k', generate_env w d = Raise (KeyError k') /\ environ w !! k' = None.
Proof.
  intros Hk Hnone. destruct (generate_env w d) as [env|e] eqn:Henv.
  - exfalso. revert Henv. unfold generate_env, getitem.
    set_unfold. destruct Hk as [->|[->|[->|[]]]]; rewrite ?Hnone; simpl;
      repeat match goal with
             | |- context [environ w !! ?x] => destruct (environ w !! x); simpl
             end; try discriminate; congruence.
  - destruct (generate_env_raises w d e Henv) as (k' & -> & Hk'). eauto.
Qed.

(** C6 (the code departs from the claim): with [PATH] and [HOME] set and
    [LOGNAME] absent, [generate_env] raises [KeyError] for [LOGNAME] instead of
    leaving the variable out, and [submit] fails with it before any call to the
    manager. *)
Theorem C6_absent_variable_raises :
  environ Examples.no_logname !! "LOGNAME" = None
  /\ generate_env Examples.no_logname Examples.job = Raise (KeyError "LOGNAME")
  /\ submit Examples.job Examples.no_logname
     = (Raise (KeyError "LOGNAME"), Examples.job, Examples.no_logname).
Proof. vm_compute. repeat split. Qed.

(** X7: with the three variables present, the environment string is the
    working directory and the host name followed by [,PBS_O_x=value] for each
    of [PATH], [HOME], [LOGNAME] in this order; a variable that is present
    with an empty value is left out. *)
Lemma generate_env_present (w : world) (d : BatchJob) (path home logname : string) :
  environ w !! "PATH" = Some path ->
  environ w !! "HOME" = Some home ->
  environ w !! "LOGNAME" = Some logname ->
  generate_env w d =
  Ok ("PBS_O_WORKDIR=" +:+ str (_workdir d) +:+ ",PBS_O_HOST=" +:+ getfqdn w
      +:+ (if truthy (Some path) then ",PBS_O_PATH=" +:+ path else EmptyString)
      +:+ (if truthy (Some home) then ",PBS_O_HOME=" +:+ home else EmptyString)
      +:+ (if truthy (Some logname) then ",PBS_O_LOGNAME=" +:+ logname else EmptyString)).
Proof.
  intros Hp Hh Hl. unfold generate_env, getitem. rewrite Hp, Hh, Hl.
  cbn [mbind result_bind bind]. f_equal.
  destruct (truthy (Some path)), (truthy (Some home)), (truthy (Some logname));
    rewrite ?string_app_nil_r, ?string_app_assoc, ?string_app_nil_r; reflexivity.
Qed.

(** ** Claims about the script templates *)

Section Rendering.

Variable tokens : gmap string pyval.

Lemma convert_all_render (segs : list Template.segment) :
  forallb is_valid segs = true ->
  (forall n, n ∈ placeholders segs -> is_Some (tokens !! n)) ->
  Template.convert_all tokens segs = Ok (render (token tokens) segs).
Proof.
  induction segs as [|seg segs IH]; intros Hv Hb; [reflexivity|].
  cbn [forallb] in Hv. apply andb_prop in Hv as [Hseg Hv].
  assert (Hrest : forall n, n ∈ placeholders segs -> is_Some (tokens !! n)).
  { intros n Hn. apply Hb. destruct seg; cbn [placeholders]; set_solver. }
  cbn [Template.convert_all]. rewrite (IH Hv Hrest).
  destruct seg as [c| |n|n|]; cbn [Template.convert render]; try reflexivity.
  - destruct (Hb n) as [v Hn]; [cbn [placeholders]; set_solver|].
    unfold token. by rewrite Hn.
  - destruct (Hb n) as [v Hn]; [cbn [placeholders]; set_solver|].
    unfold token. by rewrite Hn.
  - discriminate.
Qed.

(** A token that is [None] stops [generate_script] before substitution. *)
Lemma generate_script_none (template : string) :
  (exists key, tokens !! key = Some PNone) ->
  exists key, tokens !! key = Some PNone
              /\ generate_script template tokens = Raise (uninitialized_token key).
Proof.
  intros [key Hkey]. unfold generate_script.
  destruct (List.find _ (map_to_list tokens)) as [[k v]|] eqn:Hfind.
  - apply List.find_some in Hfind as [Hin Hnone]. exists k. split; [|reflexivity].
    apply list_elem_of_In, elem_of_map_to_list in Hin.
    destruct v; try discriminate. exact Hin.
  - assert (Hin : List.In (key, PNone) (map_to_list tokens))
      by (apply list_elem_of_In, elem_of_map_to_list; exact Hkey).
    pose proof (List.find_none _ _ Hfind (key, PNone) Hin) as Hfalse.
    discriminate Hfalse.
Qed.

(** Without such a token the result is that of [substitute]; empty strings
    pass. *)
Lemma generate_script_substitute (template : string) :
  (forall key, tokens !! key ≠ Some PNone) ->
  generate_script template tokens = Template.substitute template tokens.
Proof.
  intros Hnone. unfold generate_script.
  destruct (List.find _ (map_to_list tokens)) as [[k v]|] eqn:Hfind; [|reflexivity].
  apply List.find_some in Hfind as [Hin Hv].
  apply list_elem_of_In, elem_of_map_to_list in Hin.
  destruct v; try discriminate. by destruct (Hnone k).
Qed.

Lemma generate_script_render (template : string) :
  (forall key, tokens !! key ≠ Some PNone) ->
  forallb is_valid (Template.scan Template.Text template) = true ->
  (forall n, n ∈ placeholders (Template.scan Template.Text template) ->
             is_Some (tokens !! n)) ->
  generate_script template tokens
  = Ok (render (token tokens) (Template.scan Template.Text template)).
Proof.
  intros Hnone Hv Hb. rewrite generate_script_substitute by assumption.
  by apply convert_all_render.
Qed.

End Rendering.

Lemma render_submit_script (f : string -> string) :
  render f (Template.scan Template.Text SubmitScript.script_template)
  = submit_script_text (f "FIJI_HOME_DIR") (f "HEAP") (f "ALIGN_MACRO")
      (f "STACK_IN") (f "STACK_OUT").
Proof. vm_compute. reflexivity. Qed.

Lemma render_batch_script (f : string -> string) :
  render f (Template.scan Template.Text BatchScript.script_template)
  = batch_script_text (f "DNUM") (f "FIJI_HOME_DIR") (f "HEAP") (f "ALIGN_MACRO")
      (f "BACKGROUND_IN") (f "BACKGROUND_OUT") (f "GLOMERULI_IN") (f "GLOMERULI_OUT")
      (f "TRANS_OUT") (f "TRANS_TYPE").
Proof. vm_compute. reflexivity. Qed.

Lemma generate_submit_script (tokens : gmap string pyval) :
  (forall key, tokens !! key ≠ Some PNone) ->
  (forall key, key ∈ submit_script_keys -> is_Some (tokens !! key)) ->
  generate_script SubmitScript.script_template tokens
  = Ok (submit_script_text (token tokens "FIJI_HOME_DIR") (token tokens "HEAP")
          (token tokens "ALIGN_MACRO") (token tokens "STACK_IN") (token tokens "STACK_OUT")).
Proof.
  intros Hnone Hkeys. rewrite <- render_submit_script.
  apply generate_script_render; [assumption | by vm_compute |].
  intros n Hn. apply Hkeys. revert Hn. vm_compute. set_solver.
Qed.

Lemma generate_batch_script (tokens : gmap string pyval) :
  (forall key, tokens !! key ≠ Some PNone) ->
  (forall key, key ∈ batch_script_keys -> is_Some (tokens !! key)) ->
  generate_script BatchScript.script_template tokens
  = Ok (batch_script_text (token tokens "DNUM") (token tokens "FIJI_HOME_DIR")
          (token tokens "HEAP") (token tokens "ALIGN_MACRO")
          (token tokens "BACKGROUND_IN") (token tokens "BACKGROUND_OUT")
          (token tokens "GLOMERULI_IN") (token tokens "GLOMERULI_OUT")
          (token tokens "TRANS_OUT") (token tokens "TRANS_TYPE")).
Proof.
  intros Hnone Hkeys. rewrite <- render_batch_script.
  apply generate_script_render; [assumption | by vm_compute |].
  intros n Hn. apply Hkeys. revert Hn. vm_compute. set_solver.
Qed.

Ltac lookup_inserts :=
  repeat (rewrite lookup_insert; case_decide; [try discriminate; try (eexists; reflexivity)|]);
  rewrite ?lookup_empty; try discriminate.

Lemma truthy_Some (v : option string) :
  truthy v = true -> exists s, v = Some s.
Proof. destruct v as [s|]; [eauto | discriminate]. Qed.

(** The dictionary built by [SubmitScript.__init__] has all five tokens and
    none of them is [None]. *)
Lemma submit_init_tokens (input : string) (output heap : option string) :
  (forall key, SubmitScript.init input output heap !! key ≠ Some PNone)
  /\ (forall key, key ∈ submit_script_keys ->
                  is_Some (SubmitScript.init input output heap !! key)).
Proof.
  unfold SubmitScript.init.
  destruct (ospath.splitext input) as [filename extension].
  destruct (truthy output) eqn:Hout; [apply truthy_Some in Hout as [s ->]|];
    destruct (truthy heap); split; intros key; cbn [of_option];
      try (unfold submit_script_keys; intros Hkey; set_unfold;
           destruct Hkey as [->|[->|[->|[->|[->|[]]]]]]; by simplify_map_eq);
      lookup_inserts.
Qed.

(** The dictionary built by [BatchScript.__init__] has all ten tokens; only
    [GLOMERULI_OUT] can be [None]. *)
Lemma batch_init_tokens (background_in glomeruli_in : string)
    (background_out glomeruli_out transformations_out : option string)
    (transformation_type : string) (heap : option string) (display : Z) :
  let tokens := BatchScript.init background_in glomeruli_in background_out glomeruli_out
                  transformations_out transformation_type heap display in
  (forall key, tokens !! key = Some PNone ->
               key = "GLOMERULI_OUT" /\ truthy background_out = true /\ glomeruli_out = None)
  /\ (forall key, key ∈ batch_script_keys -> is_Some (tokens !! key)).
Proof.
  unfold BatchScript.init.
  destruct (ospath.splitext background_in) as [bfile bext].
  destruct (ospath.splitext glomeruli_in) as [gfile gext].
  destruct (truthy background_out) eqn:Hout; [apply truthy_Some in Hout as [s ->]|];
    (destruct (truthy transformations_out) eqn:Htr;
       [apply truthy_Some in Htr as [t ->]|]);
    destruct (truthy heap); cbn zeta; split; intros key; cbn [of_option];
      try (unfold batch_script_keys; intros Hkey; set_unfold;
           destruct Hkey as [->|[->|[->|[->|[->|[->|[->|[->|[->|[->|[]]]]]]]]]]];
           by simplify_map_eq);
      lookup_inserts;
      try (subst key; destruct glomeruli_out; cbn [of_option];
           intros [= ]; by repeat split).
Qed.






(** ** The heap size *)

(** The constant is the double nearest to 93/100: a 53-bit mantissa within
    half a unit in the last place. *)
Lemma point93_nearest :
  2 ^ 52 <= float.point93.1 < 2 ^ 53
  /\ 2 * Z.abs (float.point93.1 * 100 - 93 * 2 ^ 53) <= 100.
Proof. vm_compute. repeat split; discriminate. Qed.

(** For requests up to a terabyte the rounding never shows: the heap is the
    floor of 93% of the request in megabytes. *)
Lemma heap_int_floor (mem : Z) :
  0 <= mem <= 1024 -> heap_int mem = Ok (mem * 1024 * 93 / 100).
Proof.
  intros Hmem.
  assert (Hall : forallb (fun n => bool_decide (heap_int (Z.of_nat n)
                                               = Ok (Z.of_nat n * 1024 * 93 / 100)))
                   (seq 0 1025) = true) by (vm_compute; reflexivity).
  rewrite forallb_forall in Hall.
  specialize (Hall (Z.to_nat mem)). rewrite Z2Nat.id in Hall by lia.
  apply (bool_decide_unpack _), Is_true_true, Hall, in_seq. lia.
Qed.

(** C7 (as stated it fails): the heap computed for 14 is not 13333. *)
Lemma C7_heap_of_14_is_not_13333 : heap_int 14 ≠ Ok 13333.
Proof. vm_compute. discriminate. Qed.

(** C7 (amended): for a request of 14 the heap is [floor(14 * 1024 * 0.93)],
    which is 13332 (the product is 13332.48). *)
Theorem C7_heap_of_14 :
  heap_int 14 = Ok (14 * 1024 * 93 / 100)
  /\ 14 * 1024 * 93 / 100 = 13332
  /\ heap DEFAULT_MEM = Ok "13332".
Proof. vm_compute. repeat split. Qed.

(** ** The drivers: one job *)

(** Symbolic execution of the steps after the script object is made:
    temporary file, rendering, descriptor, submission. *)
Ltac run_one_job w env Henv :=
  unfold bindM, print, mkstemp, lift;
  match goal with
  | |- context [generate_script ?t ?m] =>
      match goal with H : generate_script t m = Ok _ |- _ => rewrite H end
  end;
  unfold os_write, gets, submit_job;
  cbn [files mkstemp_count with_files with_stdout getcwd];
  match goal with
  | |- context [submit ?d0 ?w0] =>
      let w2 := fresh "w" in
      set (w2 := w0);
      let Hb := fresh "Hb" in
      pose proof (build_attropl_written w2 d0 env
                    (reachable_count_ge (getcwd w) d0 (reach_init _ _ _)) Henv) as Hb;
      rewrite (submit_built w2 d0 _ _ Hb);
      change (next_reply w2) with (next_reply w);
      case_bool_decide; [reflexivity|];
      unfold os_remove; cbn [files with_stdout with_pbs_calls with_files];
      subst w2; cbn [files with_stdout with_pbs_calls with_files];
      unfold next_tmp; rewrite lookup_insert_eq; reflexivity
  end.

(** [batch_registration]: what processing one image stack does. *)
Lemma batch_process_tiff (w : world) (walltime heap mem vmem stack_dir file : string) :
  env_defined w ->
  is_tiff (ospath.splitext file).2 = true ->
  let input_file := ospath.join stack_dir file in
  let line := "Creating job to process " +:+ input_file in
  let d := BatchJob_init (getcwd w) (next_tmp w)
             (driver_args ("align_" +:+ file) walltime mem vmem) in
  exists script env,
    generate_script SubmitScript.script_template
      (SubmitScript.init input_file None (Some heap)) = Ok script
    /\ generate_env w d = Ok env
    /\ batch_registration.process walltime heap mem vmem stack_dir file w
       = if bool_decide ((next_reply w).2.1 ≠ 0)
         then (Raise (Exception (error_message (next_reply w).2.1 (next_reply w).2.2)),
               after_submit w line script d (built env d))
         else (Ok tt, after_remove w line script d (built env d)).
Proof.
  intros Hdef Htiff input_file line d.
  destruct (submit_init_tokens input_file None (Some heap)) as [Hnone Hkeys].
  pose proof (generate_submit_script _ Hnone Hkeys) as Hscript.
  destruct (generate_env_defined w d Hdef) as [env Henv].
  eexists _, env. split; [exact Hscript|]. split; [exact Henv|].
  unfold batch_registration.process.
  destruct (ospath.splitext file) as [filename extension]. cbn [snd] in Htiff.
  rewrite Htiff. fold input_file.
  run_one_job w env Henv.
Qed.

(** [multi_registration]: an identifier with a single stack is reported
    and skipped; nothing else happens. *)
Lemma multi_process_single (w : world) (walltime trans heap mem vmem id : string)
    (stacks : gmap string string) (display_number : Z) (file : string) :
  size stacks = 1%nat ->
  stacks !! "B" = Some file \/ (stacks !! "B" = None /\ stacks !! "G" = Some file) ->
  multi_registration.process walltime trans heap mem vmem id stacks display_number w
  = (Ok display_number, with_stdout (stdout w ++ [unmatched_line file]) w).
Proof.
  intros Hsize Hfile. unfold multi_registration.process.
  rewrite bool_decide_true by assumption.
  unfold bindM, lift, print, ret, getitem.
  destruct Hfile as [HB | [HB HG]].
  - rewrite bool_decide_true by (rewrite HB; eauto). by rewrite HB.
  - rewrite bool_decide_false by (rewrite HB; intros [? [=]]). by rewrite HG.
Qed.

(** [multi_registration]: what processing one matched pair does. *)
Lemma multi_process_pair (w : world) (walltime trans heap mem vmem id : string)
    (stacks : gmap string string) (display_number : Z) (b g : string) :
  env_defined w ->
  size stacks ≠ 1%nat ->
  stacks !! "B" = Some b ->
  stacks !! "G" = Some g ->
  let line := "Creating job to process " +:+ b +:+ "," +:+ g in
  let d := BatchJob_init (getcwd w) (next_tmp w)
             (driver_args ("align_" +:+ id) walltime mem vmem) in
  exists script env,
    generate_script BatchScript.script_template
      (BatchScript.init b g None None (Some (id +:+ "_transformations.txt")) trans
         (Some heap) display_number) = Ok script
    /\ generate_env w d = Ok env
    /\ multi_registration.process walltime trans heap mem vmem id stacks display_number w
       = if bool_decide ((next_reply w).2.1 ≠ 0)
         then (Raise (Exception (error_message (next_reply w).2.1 (next_reply w).2.2)),
               after_submit w line script d (built env d))
         else (Ok (display_number + 1), after_remove w line script d (built env d)).
Proof.
  intros Hdef Hsize HB HG line d.
  destruct (batch_init_tokens b g None None (Some (id +:+ "_transformations.txt")) trans
              (Some heap) display_number) as [Hnone Hkeys].
  assert (Hnone' : forall key,
            BatchScript.init b g None None (Some (id +:+ "_transformations.txt")) trans
              (Some heap) display_number !! key ≠ Some PNone).
  { intros key Hkey. by destruct (Hnone key Hkey) as (_ & ? & _). }
  pose proof (generate_batch_script _ Hnone' Hkeys) as Hscript.
  destruct (generate_env_defined w d Hdef) as [env Henv].
  eexists _, env. split; [exact Hscript|]. split; [exact Henv|].
  unfold multi_registration.process.
  rewrite bool_decide_false by assumption.
  unfold getitem. rewrite HB, HG.
  run_one_job w env Henv.
Qed.

Lemma files_after_submit (w : world) (line script : string) (d : BatchJob)
    (attropl : list pbs.attropl) :
  files (after_submit w line script d attropl) !! next_tmp w = Some script.
Proof.
  unfold after_submit. cbn [files with_pbs_calls with_files]. apply lookup_insert_eq.
Qed.

Lemma files_after_remove (w : world) (line script : string) (d : BatchJob)
    (attropl : list pbs.attropl) :
  files (after_remove w line script d attropl) !! next_tmp w = None.
Proof.
  unfold after_remove. cbn [files with_files]. apply lookup_delete_eq.
Qed.

(** C4 (as stated it fails): when the manager rejects the first job of a
    run, [main] ends with the exception and the rendered script is still in
    its temporary file. *)
Lemma C4_file_left_after_rejection :
  let out := batch_registration.main DEFAULT_WALLTIME DEFAULT_MEM DEFAULT_VMEM "stacks"
               Examples.rejecting in
  out.1 = Raise (Exception "15001: Unknown Job Id")
  /\ files out.2 !! "/tmp/tmp0.sh" ≠ None
  /\ count_calls pbs.is_submit (pbs_calls out.2) = 1%nat.
Proof. vm_compute. repeat split. discriminate. Qed.

(** C4 (amended): in both drivers the temporary script file is deleted once
    the submission has succeeded; when the manager reports an error, [submit]
    raises, the exception leaves the driver, and the file stays. *)
Theorem C4_file_removed_after_accepted_submission
    (w : world) (walltime trans heap mem vmem stack_dir file id : string)
    (stacks : gmap string string) (display_number : Z) (b g : string) :
  env_defined w ->
  let e := (next_reply w).2.1 in
  let failure := Exception (error_message e (next_reply w).2.2) in
  (is_tiff (ospath.splitext file).2 = true ->
   let out := batch_registration.process walltime heap mem vmem stack_dir file w in
   (e = 0 -> out.1 = Ok tt /\ files out.2 !! next_tmp w = None)
   /\ (e ≠ 0 -> out.1 = Raise failure /\ is_Some (files out.2 !! next_tmp w)))
  /\ (size stacks ≠ 1%nat -> stacks !! "B" = Some b -> stacks !! "G" = Some g ->
      let out := multi_registration.process walltime trans heap mem vmem id stacks
                   display_number w in
      (e = 0 -> out.1 = Ok (display_number + 1) /\ files out.2 !! next_tmp w = None)
      /\ (e ≠ 0 -> out.1 = Raise failure /\ is_Some (files out.2 !! next_tmp w))).
Proof.
  intros Hdef e failure. split.
  - intros Htiff out. subst out.
    destruct (batch_process_tiff w walltime heap mem vmem stack_dir file Hdef Htiff)
      as (script & env & _ & _ & ->).
    fold e. case_bool_decide; cbn [fst snd]; split; intros He; try contradiction.
    + split; [reflexivity|]. rewrite files_after_submit. eauto.
    + split; [reflexivity|]. apply files_after_remove.
  - intros Hsize HB HG out. subst out.
    destruct (multi_process_pair w walltime trans heap mem vmem id stacks display_number
                b g Hdef Hsize HB HG) as (script & env & _ & _ & ->).
    fold e. case_bool_decide; cbn [fst snd]; split; intros He; try contradiction.
    + split; [reflexivity|]. rewrite files_after_submit. eauto.
    + split; [reflexivity|]. apply files_after_remove.
Qed.

Lemma env_defined_full (w : world) :
  environ w = Examples.full_environ -> env_defined w.
Proof.
  intros H. unfold env_defined. rewrite H. repeat split; eexists; by vm_compute.
Qed.

Lemma C4_file_removed_after_accepted_submission_witness :
  env_defined Examples.accepting
  /\ files (batch_registration.process "4:00:00" "13332" "14gb" "25gb" "stacks" "K1_B.tif"
              Examples.accepting).2 !! next_tmp Examples.accepting = None.
Proof.
  split; [by apply env_defined_full|].
  destruct (C4_file_removed_after_accepted_submission Examples.accepting
              "4:00:00" "Rigid Body" "13332" "14gb" "25gb" "stacks" "K1_B.tif" "K1"
              ∅ 1000 "K1_B.tif" "K1_G.tif" (env_defined_full Examples.accepting eq_refl))
    as [Hbatch _].
  destruct (Hbatch eq_refl) as [Haccepted _].
  destruct (Haccepted eq_refl) as [_ Hfile].
  exact Hfile.
Defined.

(** ** The paired driver on a directory with one pair and one lone stack *)

Lemma collect_directory (entries : list string) :
  Examples.directory ≡ₚ entries ->
  multi_registration.collect ∅ entries = Ok Examples.pairs.
Proof.
  intros Hperm. apply permutations_Permutation in Hperm.
  assert (Hall : Forall (fun l => multi_registration.collect ∅ l = Ok Examples.pairs)
                   (permutations Examples.directory)).
  { apply (bool_decide_unpack _). by vm_compute. }
  rewrite Forall_forall in Hall. by apply Hall.
Qed.

Lemma items_of_pairs :
  map_to_list Examples.pairs
  = [("K1", <["B" := "K1_B.tif"]> (<["G" := "K1_G.tif"]> ∅));
     ("K2", <["B" := "K2_B.tif"]> ∅)].
Proof. vm_compute. reflexivity. Qed.

Lemma process_directory (w : world) (walltime trans heap mem vmem : string) :
  env_defined w ->
  (next_reply w).2.1 = 0 ->
  let line := "Creating job to process " +:+ "K1_B.tif" +:+ "," +:+ "K1_G.tif" in
  let d := BatchJob_init (getcwd w) (next_tmp w)
             (driver_args ("align_" +:+ "K1") walltime mem vmem) in
  exists script env,
    generate_env w d = Ok env
    /\ multi_registration.process_all walltime trans heap mem vmem
         (map_to_list Examples.pairs) 1000 w
       = (Ok tt,
          with_stdout
            (stdout (after_remove w line script d (built env d))
               ++ [unmatched_line "K2_B.tif"])
            (after_remove w line script d (built env d))).
Proof.
  intros Hdef Haccept line d. rewrite items_of_pairs.
  destruct (multi_process_pair w walltime trans heap mem vmem "K1"
              (<["B" := "K1_B.tif"]> (<["G" := "K1_G.tif"]> ∅)) 1000
              "K1_B.tif" "K1_G.tif" Hdef)
    as (script & env & _ & Henv & Hpair);
    [by vm_compute | by vm_compute | by vm_compute |].
  exists script, env. split; [exact Henv|].
  cbn [multi_registration.process_all]. unfold bindM at 1. rewrite Hpair.
  rewrite bool_decide_false by (intros Hne; contradiction).
  unfold bindM at 1.
  rewrite (multi_process_single _ walltime trans heap mem vmem "K2"
             (<["B" := "K2_B.tif"]> ∅) (1000 + 1) "K2_B.tif");
    [reflexivity | by vm_compute | left; by vm_compute].
Qed.

Lemma named_in_built (env : string) (d : BatchJob) :
  num_set d <= attribute_count d ->
  truthy (_name d) = true ->
  pbs.mkAttr (Some pbs.ATTR_N) None (_name d) ∈ built env d.
Proof.
  intros _ Hname. unfold built, written, slots. cbn [flat_map entry_of].
  rewrite Hname. apply elem_of_app. left. right. left.
Qed.

(** * Further properties of the code *)

(** ** The descriptor and its setters *)

Lemma count_after_delta (old new : option string) (count : Z) :
  count_after old new count = count + count_after old new 0.
Proof.
  unfold count_after.
  destruct (negb (truthy old) && truthy new); [lia|].
  destruct (is_None new && truthy old); lia.
Qed.

Ltac unfold_setters :=
  unfold apply_setter, set_name, set_walltime, set_nodes, set_stderr_path,
    set_stdout_path, set_dependency_list, set_workdir, set_mail_options, set_mem,
    set_vmem;
  cbn [_name _walltime _nodes _stderr_path _stdout_path _workdir _dependency_list
       _mail_options _mem _vmem attribute_count job_script job_id].

Lemma count_after_same (v : option string) (count : Z) :
  count_after v v count = count.
Proof. unfold count_after. by destruct v as [[|? ?]|]. Qed.

(** X1: as long as neither the constructor nor a later assignment gives a
    counted attribute the empty string, [attribute_count] is exactly the
    number of attributes [submit] will send, after any sequence of
    assignments. *)
Theorem X1_count_exact_without_empty_strings
    (cwd script : string) (a : init_args) (os : list setter) :
  Forall assigns_no_empty (init_setters a ++ os) ->
  attribute_count (apply_setters cwd os (BatchJob_init cwd script a))
  = num_set (apply_setters cwd os (BatchJob_init cwd script a))
  /\ 0 <= attribute_count (apply_setters cwd os (BatchJob_init cwd script a)) <= 9.
Proof.
  intros Hall.
  pose proof (count_exact_without_empty cwd script a os Hall) as Heq.
  split; [exact Heq|]. rewrite Heq.
  set (d := apply_setters cwd os (BatchJob_init cwd script a)).
  rewrite num_set_unfold.
  repeat match goal with |- context [truthy ?v] => destruct (truthy v) end;
    simpl; lia.
Qed.

Lemma X1_count_exact_without_empty_strings_witness :
  attribute_count
    (apply_setters "/work" [SetName None; SetMem (Some "14gb"); SetMem (Some "20gb")]
       (BatchJob_init "/work" "/tmp/job.sh"
          (mkArgs (Some "align") (Some "4:00:00") None None None None None None None None)))
  = 2.
Proof.
  destruct (X1_count_exact_without_empty_strings "/work" "/tmp/job.sh"
              (mkArgs (Some "align") (Some "4:00:00") None None None None None None None None)
              [SetName None; SetMem (Some "14gb"); SetMem (Some "20gb")]) as [Heq _].
  - unfold init_setters. cbn [app arg_name arg_walltime arg_nodes arg_stdout arg_stderr
                               arg_workdir arg_mail_options arg_dependency_list arg_mem
                               arg_vmem].
    repeat (constructor; [cbn; try exact I; discriminate|]). constructor.
  - rewrite Heq. reflexivity.
Defined.

(** X2: no assignment ever reduces the excess of [attribute_count] over the
    number of set attributes: once the count has drifted, no later sequence of
    assignments brings it back. *)
Theorem X2_excess_never_shrinks (cwd : string) (os : list setter) (d : BatchJob) :
  attribute_count d - num_set d
  <= attribute_count (apply_setters cwd os d) - num_set (apply_setters cwd os d).
Proof.
  revert d. induction os as [|o os IH]; intros d; [reflexivity|].
  unfold apply_setters in *. cbn [fold_left].
  etrans; [apply (setter_slack cwd o d)|]. apply IH.
Qed.

(** X3: assigning the same value twice is the same as assigning it once, for
    every property of the descriptor, the count included. *)
Theorem X3_setters_idempotent (cwd : string) (o : setter) (d : BatchJob) :
  apply_setter cwd o (apply_setter cwd o d) = apply_setter cwd o d.
Proof.
  destruct d.
  destruct o as [v|v|v|v|v|v|v|v|v|v]; unfold_setters;
    rewrite ?count_after_same; reflexivity.
Qed.

Lemma count_after_comm (old1 new1 old2 new2 : option string) (count : Z) :
  count_after old1 new1 (count_after old2 new2 count)
  = count_after old2 new2 (count_after old1 new1 count).
Proof.
  rewrite (count_after_delta old1 new1 (count_after old2 new2 count)).
  rewrite (count_after_delta old2 new2 (count_after old1 new1 count)).
  rewrite (count_after_delta old2 new2 count), (count_after_delta old1 new1 count).
  lia.
Qed.

(** X4: assignments to two different properties commute, so the order in
    which a program (or the constructor) sets them does not matter. *)
Theorem X4_setters_commute (cwd : string) (o1 o2 : setter) (d : BatchJob) :
  setter_attr o1 ≠ setter_attr o2 ->
  apply_setter cwd o1 (apply_setter cwd o2 d)
  = apply_setter cwd o2 (apply_setter cwd o1 d).
Proof.
  intros Hne. destruct d.
  destruct o1 as [v1|v1|v1|v1|v1|v1|v1|v1|v1|v1],
           o2 as [v2|v2|v2|v2|v2|v2|v2|v2|v2|v2];
    try (exfalso; apply Hne; reflexivity);
    unfold_setters; f_equal; try reflexivity; apply count_after_comm.
Qed.

Lemma X4_setters_commute_witness :
  apply_setter "/work" (SetName (Some "a")) (apply_setter "/work" (SetMem None) Examples.job)
  = apply_setter "/work" (SetMem None) (apply_setter "/work" (SetName (Some "a")) Examples.job).
Proof.
  apply (X4_setters_commute "/work" (SetName (Some "a")) (SetMem None) Examples.job).
  cbn. discriminate.
Defined.

Lemma workdir_resolved (cwd : string) (workdir : option string) :
  exists s, (if negb (truthy workdir) then Some cwd else workdir) = Some s
            /\ (s = cwd \/ truthy (Some s) = true).
Proof.
  destruct workdir as [[|c s]|]; cbn; eauto.
Qed.

Lemma workdir_stored (cwd : string) (workdir : option string) :
  (if negb (truthy workdir) then Some cwd else workdir)
  = Some (if truthy workdir then str workdir else cwd).
Proof. by destruct workdir as [[|c s]|]. Qed.

Lemma workdir_after_setters (cwd : string) (os : list setter) (d : BatchJob)
    (v : option string) :
  _workdir d = Some (if truthy v then str v else cwd) ->
  _workdir (apply_setters cwd os d)
  = Some (if truthy (workdir_assigned os v) then str (workdir_assigned os v) else cwd).
Proof.
  revert d v. induction os as [|o os IH]; intros d v Hd; [exact Hd|].
  unfold apply_setters, workdir_assigned in *. cbn [fold_left].
  destruct o as [x|x|x|x|x|x|x|x|x|x]; apply IH; try exact Hd.
  unfold_setters. apply workdir_stored.
Qed.

(** X5: a descriptor always has a working directory, and it is the one last
    assigned: after the constructor and any sequence of assignments, [workdir]
    is the value given by the latest assignment to it (or else by the
    constructor) when that value is a non-empty path, and the current
    directory when it is [None] or the empty string; the other setters leave
    it alone. *)
Theorem X5_workdir_always_resolved
    (cwd script : string) (a : init_args) (os : list setter) (d : BatchJob) :
  let assigned := workdir_assigned os (arg_workdir a) in
  _workdir (apply_setters cwd os (BatchJob_init cwd script a))
  = Some (if truthy assigned then str assigned else cwd)
  /\ (reachable cwd d ->
      exists s, _workdir d = Some s /\ (s = cwd \/ truthy (Some s) = true)).
Proof.
  intros assigned. split.
  - apply workdir_after_setters.
    change (_workdir (BatchJob_init cwd script a))
      with (if negb (truthy (arg_workdir a)) then Some cwd else arg_workdir a).
    apply workdir_stored.
  - induction 1 as [script' a' | o d' Hd IH].
    + change (_workdir (BatchJob_init cwd script' a'))
        with (if negb (truthy (arg_workdir a')) then Some cwd else arg_workdir a').
      apply workdir_resolved.
    + destruct o as [v|v|v|v|v|v|v|v|v|v]; try exact IH.
      unfold_setters. apply workdir_resolved.
Qed.

Lemma X5_workdir_always_resolved_witness :
  _workdir (apply_setters "/work"
              [SetWorkdir (Some "/scratch"); SetName (Some "a"); SetWorkdir (Some "/data")]
              (BatchJob_init "/work" "/tmp/job.sh"
                 (mkArgs None None None None None (Some "/home") None None None None)))
  = Some "/data"
  /\ exists s, _workdir (set_workdir "/work" (Some EmptyString) Examples.job) = Some s
               /\ (s = "/work" \/ truthy (Some s) = true).
Proof.
  destruct (X5_workdir_always_resolved "/work" "/tmp/job.sh"
              (mkArgs None None None None None (Some "/home") None None None None)
              [SetWorkdir (Some "/scratch"); SetName (Some "a"); SetWorkdir (Some "/data")]
              (apply_setter "/work" (SetWorkdir (Some EmptyString)) Examples.job))
    as [Hlast Hreach].
  split; [exact Hlast|].
  apply Hreach. apply reach_set. apply reach_init.
Defined.

(** ** [generate_env] and [submit] *)

Lemma X7_generate_env_present_witness :
  generate_env Examples.accepting Examples.job
  = Ok "PBS_O_WORKDIR=/work,PBS_O_HOST=login.cluster,PBS_O_PATH=/usr/bin:/bin,PBS_O_HOME=/home/user,PBS_O_LOGNAME=user".
Proof.
  rewrite (generate_env_present Examples.accepting Examples.job
             "/usr/bin:/bin" "/home/user" "user"); reflexivity.
Defined.

(** X6: [generate_env] succeeds exactly when [PATH], [HOME] and [LOGNAME]
    are all in the environment; otherwise it raises [KeyError] for the first
    of them, in this order, that is absent. *)
Theorem X6_generate_env_fails_iff_variable_absent (w : world) (d : BatchJob) :
  (is_ok (generate_env w d) = true <-> env_defined w)
  /\ (forall e, generate_env w d = Raise e ->
        (e = KeyError "PATH" /\ environ w !! "PATH" = None)
        \/ (e = KeyError "HOME" /\ is_Some (environ w !! "PATH")
            /\ environ w !! "HOME" = None)
        \/ (e = KeyError "LOGNAME" /\ is_Some (environ w !! "PATH")
            /\ is_Some (environ w !! "HOME") /\ environ w !! "LOGNAME" = None)).
Proof.
  unfold env_defined, generate_env, getitem.
  destruct (environ w !! "PATH") as [path|] eqn:Hp; cbn [mbind result_bind bind];
    [|split; [split; [discriminate | intros ([? [=]] & _)]
             | intros e [= <-]; left; by split]].
  destruct (environ w !! "HOME") as [home|] eqn:Hh; cbn [mbind result_bind bind];
    [|split; [split; [discriminate | intros (_ & [? [=]] & _)]
             | intros e [= <-]; right; left; eauto]].
  destruct (environ w !! "LOGNAME") as [logname|] eqn:Hl; cbn [mbind result_bind bind];
    [|split; [split; [discriminate | intros (_ & _ & [? [=]])]
             | intros e [= <-]; right; right; eauto 6]].
  split; [|discriminate]. split; [eauto 6 | reflexivity].
Qed.

(** X8: for a descriptor built by the constructor and the setters, the array
    [submit] hands to the manager holds the environment entry and the set
    attributes in the fixed order name, walltime, nodes, stdout, stderr,
    dependency, mail, mem, vmem, followed by as many blank slots as the count
    exceeds the number of set attributes; with an exact count there is no
    blank slot. *)
Theorem X8_array_is_entries_then_blanks
    (cwd : string) (w : world) (d : BatchJob) (env : string) :
  reachable cwd d ->
  generate_env w d = Ok env ->
  exists attropl idx,
    build_attropl w d = Ok (attropl, idx)
    /\ take idx attropl = written (slots env d)
    /\ drop idx attropl
       = replicate (Z.to_nat (attribute_count d - num_set d)) pbs.blank
    /\ Forall (fun e => pbs.name e ≠ None) (take idx attropl)
    /\ (attribute_count d = num_set d -> attropl = written (slots env d)).
Proof.
  intros Hd Henv.
  rewrite (build_attropl_written w d env (reachable_count_ge cwd d Hd) Henv).
  eexists _, _. split; [reflexivity|].
  rewrite take_app_length, drop_app_length.
  split; [reflexivity|]. split; [reflexivity|]. split.
  - unfold written. apply Forall_flat_map. apply Forall_forall.
    intros [[[c n] r] v] _. cbn. destruct c; repeat constructor. discriminate.
  - intros ->. rewrite Z.sub_diag. cbn [Z.to_nat replicate]. apply app_nil_r.
Qed.

Lemma X8_array_is_entries_then_blanks_witness :
  exists attropl idx,
    build_attropl Examples.accepting (set_name (Some EmptyString) Examples.job)
    = Ok (attropl, idx)
    /\ drop idx attropl = [pbs.blank].
Proof.
  destruct (X8_array_is_entries_then_blanks "/work" Examples.accepting
              (apply_setter "/work" (SetName (Some EmptyString)) Examples.job)
              "PBS_O_WORKDIR=/work,PBS_O_HOST=login.cluster,PBS_O_PATH=/usr/bin:/bin,PBS_O_HOME=/home/user,PBS_O_LOGNAME=user")
    as (attropl & idx & Hb & _ & Hdrop & _).
  - apply reach_set, reach_init.
  - vm_compute. reflexivity.
  - exists attropl, idx. split; [exact Hb|]. exact Hdrop.
Defined.

(** X9: when a variable is missing, [submit] on such a descriptor raises the
    [KeyError] of [generate_env] without any call to the manager; the
    descriptor (its [job_id] too) and the world are as before. *)
Theorem X9_submit_fails_before_contact
    (cwd : string) (w : world) (d : BatchJob) (e : exn) :
  reachable cwd d ->
  generate_env w d = Raise e ->
  submit d w = (Raise e, d, w).
Proof.
  intros Hd Henv. unfold submit.
  pose proof (reachable_count_ge cwd d Hd) as Hc.
  pose proof (num_set_nonneg d) as H0.
  rewrite build_attropl_fill_all, Henv by lia. reflexivity.
Qed.

Lemma X9_submit_fails_before_contact_witness :
  submit Examples.job Examples.no_logname
  = (Raise (KeyError "LOGNAME"), Examples.job, Examples.no_logname).
Proof.
  apply (X9_submit_fails_before_contact "/work").
  - apply reach_init.
  - vm_compute. reflexivity.
Defined.

Lemma build_attropl_frame (w : world) (d : BatchJob) (cs : list pbs.call)
    (id : option string) :
  build_attropl (with_pbs_calls cs w) (set_job_id id d) = build_attropl w d.
Proof. reflexivity. Qed.

(** X10: submitting the same descriptor again creates a second job: the two
    calls add two connect, submit, disconnect triples with the same attribute
    array, the second answer of the manager is the one used, and [job_id]
    ends as the id of the second job; the count is untouched. *)
Theorem X10_resubmission_creates_second_job
    (w : world) (d : BatchJob) (attropl : list pbs.attropl) (idx : nat) :
  build_attropl w d = Ok (attropl, idx) ->
  let first := submit d w in
  let second := submit first.1.2 first.2 in
  let n := count_calls pbs.is_submit (pbs_calls w) in
  pbs_calls second.2
  = (pbs_calls w ++ submit_calls w d attropl)
      ++ submit_calls first.2 first.1.2 attropl
  /\ count_calls pbs.is_submit (pbs_calls second.2) = S (S n)
  /\ job_id first.1.2 = (submit_reply w n).1
  /\ job_id second.1.2 = (submit_reply w (S n)).1
  /\ attribute_count second.1.2 = attribute_count d.
Proof.
  intros Hb first second n. subst second first.
  rewrite (submit_built w d attropl idx Hb). cbn [fst snd].
  rewrite (submit_built _ _ attropl idx)
    by (rewrite build_attropl_frame; exact Hb).
  cbn [fst snd pbs_calls with_pbs_calls].
  assert (Hn : count_calls pbs.is_submit (pbs_calls w ++ submit_calls w d attropl)
               = S n).
  { rewrite count_calls_app. unfold submit_calls.
    change (count_calls pbs.is_submit [_; _; _]) with 1%nat. subst n. lia. }
  split; [reflexivity|]. split.
  - rewrite count_calls_app, Hn. unfold submit_calls.
    change (count_calls pbs.is_submit [_; _; _]) with 1%nat. lia.
  - split; [reflexivity|]. split; [|reflexivity].
    unfold next_reply. cbn [pbs_calls with_pbs_calls submit_reply set_job_id job_id].
    by rewrite Hn.
Qed.

Lemma X10_resubmission_creates_second_job_witness :
  job_id (submit (submit Examples.job Examples.accepting).1.2
            (submit Examples.job Examples.accepting).2).1.2
  = Some "1.torque".
Proof.
  destruct (X10_resubmission_creates_second_job Examples.accepting Examples.job
              (fst (match build_attropl Examples.accepting Examples.job with
                    | Ok st => st
                    | Raise _ => ([], 0%nat)
                    end))
              4%nat) as (_ & _ & _ & Hid & _).
  - vm_compute. reflexivity.
  - rewrite Hid. vm_compute. reflexivity.
Defined.

(** ** Paths and default output names *)

Lemma string_app_cons (a : ascii) (s t : string) :
  String a s +:+ t = String a (s +:+ t).
Proof. reflexivity. Qed.

Lemma string_length_app (a b : string) :
  String.length (a +:+ b) = (String.length a + String.length b)%nat.
Proof.
  induction a as [|x a IH]; [reflexivity|].
  rewrite string_app_cons. cbn [String.length]. by rewrite IH.
Qed.

Lemma contains_app (c : ascii) (a b : string) :
  contains c (a +:+ b) = contains c a || contains c b.
Proof.
  induction a as [|x a IH]; [reflexivity|].
  rewrite string_app_cons. cbn [contains]. rewrite IH. by rewrite orb_assoc.
Qed.

Lemma rfind_from_absent (c : ascii) (s : string) (i : Z) :
  contains c s = false -> ospath.rfind_from c s i = -1.
Proof.
  revert i. induction s as [|a s IH]; intros i Hc; [reflexivity|].
  cbn [contains] in Hc. apply orb_false_iff in Hc as [Ha Hs].
  cbn [ospath.rfind_from]. rewrite (IH _ Hs), Ha. reflexivity.
Qed.

Lemma rfind_from_last (c : ascii) (a b : string) (i : Z) :
  0 <= i ->
  contains c b = false ->
  ospath.rfind_from c (a +:+ String c b) i = i + Z.of_nat (String.length a).
Proof.
  revert i. induction a as [|x a IH]; intros i Hi Hb.
  - change (EmptyString +:+ String c b) with (String c b).
    cbn [ospath.rfind_from String.length]. rewrite (rfind_from_absent c b _ Hb).
    unfold ospath.ascii_eqb. rewrite bool_decide_true by reflexivity. cbn. lia.
  - rewrite string_app_cons. cbn [ospath.rfind_from String.length].
    rewrite (IH (i + 1)) by (lia || assumption).
    destruct (0 <=? i + 1 + Z.of_nat (String.length a))%Z eqn:Hle; [lia|].
    apply Z.leb_gt in Hle. lia.
Qed.

Lemma substring_skip (a s : string) (n : nat) :
  substring (String.length a) n (a +:+ s) = substring 0 n s.
Proof. induction a as [|x a IH]; [reflexivity|]. exact IH. Qed.

Lemma substring_prefix (b c : string) :
  substring 0 (String.length b) (b +:+ c) = b.
Proof.
  induction b as [|x b IH]; [by destruct c|].
  rewrite string_app_cons. cbn [String.length substring]. by rewrite IH.
Qed.

Lemma substring_all (s : string) : substring 0 (String.length s) s = s.
Proof.
  rewrite <- (string_app_nil_r s) at 2. apply substring_prefix.
Qed.

(** The slash before the file name is the last one, whatever the prefix. *)
Lemma rfind_slash_prefix (pre rest : string) :
  is_dir_prefix pre ->
  contains "/" rest = false ->
  ospath.rfind "/" (pre +:+ rest) + 1 = Z.of_nat (String.length pre).
Proof.
  intros [-> | [pre' ->]] Hrest; unfold ospath.rfind.
  - change (EmptyString +:+ rest) with rest.
    by rewrite (rfind_from_absent _ _ _ Hrest).
  - rewrite string_app_assoc. change ("/" +:+ rest) with (String "/" rest).
    rewrite rfind_from_last by (lia || assumption).
    rewrite string_length_app. cbn [String.length]. lia.
Qed.

(** [os.path.splitext] and [os.path.basename] on a path made of a directory
    prefix, a stem and an extension. *)
Lemma splitext_stem_ext (pre stem ext : string) :
  is_dir_prefix pre ->
  is_stem_ext stem ext ->
  ospath.splitext (pre +:+ stem +:+ String "." ext) = (pre +:+ stem, String "." ext)
  /\ ospath.basename (pre +:+ stem) = stem.
Proof.
  intros Hpre (Hs1 & Hs2 & He1 & He2).
  assert (Hsep : ospath.rfind "/" (pre +:+ stem +:+ String "." ext) + 1
                 = Z.of_nat (String.length pre)).
  { apply rfind_slash_prefix; [assumption|].
    rewrite contains_app. cbn [contains]. rewrite Hs1, He1. reflexivity. }
  assert (Hdot : ospath.rfind "." (pre +:+ stem +:+ String "." ext)
                 = Z.of_nat (String.length (pre +:+ stem))).
  { unfold ospath.rfind. rewrite <- string_app_assoc.
    rewrite rfind_from_last by (lia || assumption). lia. }
  split.
  - unfold ospath.splitext. rewrite Hdot.
    replace (ospath.rfind "/" (pre +:+ stem +:+ String "." ext))
      with (Z.of_nat (String.length pre) - 1) by lia.
    rewrite string_length_app.
    assert (Hlt : (Z.of_nat (String.length pre) - 1
                   <? Z.of_nat (String.length pre + String.length stem))%Z = true)
      by (apply Z.ltb_lt; lia).
    rewrite Hlt. unfold ospath.slice, ospath.slice_from.
    replace (Z.to_nat (Z.of_nat (String.length pre) - 1 + 1)) with (String.length pre)
      by lia.
    replace (Z.to_nat (Z.of_nat (String.length pre + String.length stem)
                       - (Z.of_nat (String.length pre) - 1 + 1)))
      with (String.length stem) by lia.
    rewrite substring_skip, substring_prefix, Hs2. cbn [andb].
    f_equal.
    + rewrite <- string_app_assoc.
      replace (Z.to_nat (Z.of_nat (String.length pre + String.length stem) - 0))
        with (String.length (pre +:+ stem)) by (rewrite string_length_app; lia).
      cbn [Z.to_nat]. apply substring_prefix.
    + rewrite <- string_app_assoc.
      replace (Z.to_nat (Z.of_nat (String.length pre + String.length stem)))
        with (String.length (pre +:+ stem)) by (rewrite string_length_app; lia).
      rewrite substring_skip.
      rewrite (string_length_app (pre +:+ stem)).
      replace (String.length (pre +:+ stem) + String.length (String "." ext)
               - String.length (pre +:+ stem))%nat
        with (String.length (String "." ext)) by lia.
      apply substring_all.
  - unfold ospath.basename, ospath.slice_from.
    rewrite (rfind_slash_prefix pre stem Hpre Hs1).
    rewrite Nat2Z.id, substring_skip, string_length_app.
    replace (String.length pre + String.length stem - String.length pre)%nat
      with (String.length stem) by lia.
    apply substring_all.
Qed.

(** X12: without an explicit output, the single-stack script writes to the
    input's file name with [-aligned] put before the extension, in the working
    directory: the directory part of the input is dropped.  A non-empty
    explicit output is used as given. *)
Theorem X12_submit_script_default_output
    (pre stem ext : string) (output heap : option string) :
  is_dir_prefix pre ->
  is_stem_ext stem ext ->
  let input := pre +:+ stem +:+ String "." ext in
  SubmitScript.init input output heap !! "STACK_IN" = Some (PStr input)
  /\ SubmitScript.init input output heap !! "STACK_OUT"
     = Some (if truthy output then of_option output
             else PStr (stem +:+ "-aligned" +:+ String "." ext)).
Proof.
  intros Hpre Hstem input.
  destruct (splitext_stem_ext pre stem ext Hpre Hstem) as [Hsplit Hbase].
  unfold SubmitScript.init. fold input. subst input. rewrite Hsplit, Hbase.
  destruct (truthy output), (truthy heap); by simplify_map_eq.
Qed.

Lemma X12_submit_script_default_output_witness :
  SubmitScript.init "stacks/sample.tiff" None None !! "STACK_OUT"
  = Some (PStr "sample-aligned.tiff").
Proof.
  destruct (X12_submit_script_default_output "stacks/" "sample" "tiff" None None)
    as [_ Hout].
  - right. by exists "stacks".
  - by vm_compute.
  - exact Hout.
Defined.

(** X13: without a background output, the paired script names both outputs
    after their inputs with [_aligned] before the extension, directory parts
    dropped; the glomeruli output argument has no effect in that case. *)
Theorem X13_batch_script_default_outputs
    (bpre bstem bext gpre gstem gext : string)
    (glomeruli_out transformations_out : option string)
    (transformation_type : string) (heap : option string) (display : Z) :
  is_dir_prefix bpre -> is_stem_ext bstem bext ->
  is_dir_prefix gpre -> is_stem_ext gstem gext ->
  let tokens :=
    BatchScript.init (bpre +:+ bstem +:+ String "." bext)
      (gpre +:+ gstem +:+ String "." gext) None glomeruli_out transformations_out
      transformation_type heap display in
  tokens !! "BACKGROUND_OUT" = Some (PStr (bstem +:+ "_aligned" +:+ String "." bext))
  /\ tokens !! "GLOMERULI_OUT" = Some (PStr (gstem +:+ "_aligned" +:+ String "." gext))
  /\ tokens !! "TRANS_OUT"
     = Some (if truthy transformations_out then of_option transformations_out
             else PStr "transformations.txt")
  /\ tokens !! "DNUM" = Some (PInt display).
Proof.
  intros Hbpre Hb Hgpre Hg tokens. subst tokens.
  destruct (splitext_stem_ext bpre bstem bext Hbpre Hb) as [Hbsplit Hbbase].
  destruct (splitext_stem_ext gpre gstem gext Hgpre Hg) as [Hgsplit Hgbase].
  unfold BatchScript.init. rewrite Hbsplit, Hgsplit, Hbbase, Hgbase.
  cbn [truthy].
  destruct (truthy transformations_out), (truthy heap); by simplify_map_eq.
Qed.

Lemma X13_batch_script_default_outputs_witness :
  BatchScript.init "K1_B.tif" "K1_G.tif" None (Some "ignored.tif") None "Affine" None 1000
    !! "GLOMERULI_OUT"
  = Some (PStr "K1_G_aligned.tif").
Proof.
  destruct (X13_batch_script_default_outputs EmptyString "K1_B" "tif" EmptyString "K1_G" "tif"
              (Some "ignored.tif") None "Affine" None 1000) as (_ & Hg & _).
  - by left.
  - by vm_compute.
  - by left.
  - by vm_compute.
  - exact Hg.
Defined.

(** ** The heap size, for every request up to 4 TB *)

(** X11: for a request of 0 to 4096 GB the heap is the floor of 93% of the
    request in megabytes, computed without overflow; it is never more than
    the request and, for a positive request, strictly less. *)
Theorem X11_heap_is_floor_of_93_percent (mem : Z) :
  0 <= mem <= 4096 ->
  heap_int mem = Ok (mem * 1024 * 93 / 100)
  /\ heap mem = Ok (pretty (mem * 1024 * 93 / 100))
  /\ mem * 1024 * 93 / 100 <= mem * 1024
  /\ (0 < mem -> mem * 1024 * 93 / 100 < mem * 1024).
Proof.
  intros Hmem.
  assert (Hall : forallb (fun n => bool_decide (heap_int (Z.of_nat n)
                                               = Ok (Z.of_nat n * 1024 * 93 / 100)))
                   (seq 0 4097) = true) by (vm_compute; reflexivity).
  rewrite forallb_forall in Hall.
  specialize (Hall (Z.to_nat mem)). rewrite Z2Nat.id in Hall by lia.
  assert (Hheap : heap_int mem = Ok (mem * 1024 * 93 / 100)).
  { apply (bool_decide_unpack _), Is_true_true, Hall, in_seq. lia. }
  split; [exact Hheap|]. split; [unfold heap; by rewrite Hheap|].
  split.
  - apply Z.div_le_upper_bound; lia.
  - intros Hpos. apply Z.div_lt_upper_bound; lia.
Qed.

Lemma X11_heap_is_floor_of_93_percent_witness :
  heap 25 = Ok "23808".
Proof.
  destruct (X11_heap_is_floor_of_93_percent 25) as (_ & Hheap & _); [lia|].
  rewrite Hheap. vm_compute. reflexivity.
Defined.

(** ** The single-stack driver on a whole directory *)

Lemma batch_process_not_tiff (w : world) (walltime heap mem vmem stack_dir file : string) :
  is_tiff (ospath.splitext file).2 = false ->
  batch_registration.process walltime heap mem vmem stack_dir file w = (Ok tt, w).
Proof.
  intros Hno. unfold batch_registration.process.
  destruct (ospath.splitext file) as [filename extension]. cbn [snd] in Hno.
  by rewrite Hno.
Qed.

Lemma files_after_remove_subseteq (w : world) (line script : string) (d : BatchJob)
    (attropl : list pbs.attropl) :
  files (after_remove w line script d attropl) ⊆ files w.
Proof.
  unfold after_remove, after_submit. cbn [files with_files with_pbs_calls with_stdout].
  rewrite !delete_insert_eq. apply delete_subseteq.
Qed.

Lemma same_services_env_defined (w w' : world) :
  same_services w w' -> env_defined w -> env_defined w'.
Proof. intros (He & _) Hdef. unfold env_defined. by rewrite He. Qed.

Lemma same_services_accepts_all (w w' : world) :
  same_services w w' -> accepts_all w -> accepts_all w'.
Proof. intros (_ & _ & _ & _ & _ & Hs) Hacc n. rewrite Hs. apply Hacc. Qed.

Lemma same_services_trans (w1 w2 w3 : world) :
  same_services w1 w2 -> same_services w2 w3 -> same_services w1 w3.
Proof.
  intros (A1 & A2 & A3 & A4 & A5 & A6) (B1 & B2 & B3 & B4 & B5 & B6).
  repeat split; congruence.
Qed.

(** One accepted job of the single-stack driver, seen from outside. *)
Lemma batch_process_accepted (w : world) (walltime heap mem vmem stack_dir file : string) :
  env_defined w ->
  accepts_all w ->
  is_tiff (ospath.splitext file).2 = true ->
  exists w',
    batch_registration.process walltime heap mem vmem stack_dir file w = (Ok tt, w')
    /\ same_services w w'
    /\ files w' ⊆ files w
    /\ count_calls pbs.is_submit (pbs_calls w') = S (count_calls pbs.is_submit (pbs_calls w))
    /\ count_calls pbs.is_connect (pbs_calls w')
       = S (count_calls pbs.is_connect (pbs_calls w))
    /\ count_calls pbs.is_disconnect (pbs_calls w')
       = S (count_calls pbs.is_disconnect (pbs_calls w))
    /\ mkstemp_count w' = S (mkstemp_count w).
Proof.
  intros Hdef Hacc Htiff.
  destruct (batch_process_tiff w walltime heap mem vmem stack_dir file Hdef Htiff)
    as (script & env & _ & _ & Hrun).
  rewrite bool_decide_false in Hrun by (intros Hne; apply Hne, Hacc).
  eexists. split; [exact Hrun|].
  split; [by repeat split|]. split; [apply files_after_remove_subseteq|].
  unfold after_remove, after_submit.
  cbn [pbs_calls mkstemp_count with_files with_pbs_calls with_stdout].
  rewrite !count_calls_app. unfold submit_calls.
  change (count_calls pbs.is_submit [_; _; _]) with 1%nat.
  change (count_calls pbs.is_connect [_; _; _]) with 1%nat.
  change (count_calls pbs.is_disconnect [_; _; _]) with 1%nat.
  repeat split; lia.
Qed.

Lemma same_services_refl (w : world) : same_services w w.
Proof. by repeat split. Qed.

Lemma tiff_entries_nil_cons (file : string) (entries : list string) :
  tiff_entries (file :: entries) = [] ->
  is_tiff (ospath.splitext file).2 = false /\ tiff_entries entries = [].
Proof.
  unfold tiff_entries. rewrite filter_cons. case_decide as Htiff; [discriminate|].
  intros Hnil. split; [by destruct (is_tiff _) | exact Hnil].
Qed.

(** Entries that are not image stacks are passed over. *)
Lemma batch_for_each_skip (w : world) (walltime heap mem vmem stack_dir : string)
    (skipped entries : list string) :
  tiff_entries skipped = [] ->
  for_each (skipped ++ entries)
    (batch_registration.process walltime heap mem vmem stack_dir) w
  = for_each entries (batch_registration.process walltime heap mem vmem stack_dir) w.
Proof.
  induction skipped as [|file skipped IH]; intros Hnil; [reflexivity|].
  apply tiff_entries_nil_cons in Hnil as [Hno Hnil].
  cbn [app for_each]. unfold bindM at 1.
  rewrite (batch_process_not_tiff w walltime heap mem vmem stack_dir file Hno).
  by apply IH.
Qed.

Lemma batch_for_each_accepted (walltime heap mem vmem stack_dir : string)
    (entries : list string) (w : world) :
  env_defined w ->
  accepts_all w ->
  exists w',
    for_each entries (batch_registration.process walltime heap mem vmem stack_dir) w
    = (Ok tt, w')
    /\ same_services w w'
    /\ files w' ⊆ files w
    /\ count_calls pbs.is_submit (pbs_calls w')
       = (count_calls pbs.is_submit (pbs_calls w) + length (tiff_entries entries))%nat
    /\ count_calls pbs.is_connect (pbs_calls w')
       = (count_calls pbs.is_connect (pbs_calls w) + length (tiff_entries entries))%nat
    /\ count_calls pbs.is_disconnect (pbs_calls w')
       = (count_calls pbs.is_disconnect (pbs_calls w) + length (tiff_entries entries))%nat
    /\ mkstemp_count w' = (mkstemp_count w + length (tiff_entries entries))%nat.
Proof.
  revert w. induction entries as [|file entries IH]; intros w Hdef Hacc.
  - exists w. change (tiff_entries []) with (@nil string).
    cbn [for_each length]. unfold ret.
    split; [reflexivity|]. split; [apply same_services_refl|].
    split; [reflexivity|]. repeat split; lia.
  - cbn [for_each]. unfold bindM at 1. unfold tiff_entries. rewrite filter_cons.
    fold (tiff_entries entries).
    destruct (is_tiff (ospath.splitext file).2) eqn:Htiff.
    + rewrite decide_True by reflexivity.
      destruct (batch_process_accepted w walltime heap mem vmem stack_dir file
                  Hdef Hacc Htiff) as (w1 & -> & Hsame & Hfiles & Hs & Hc & Hd & Hm).
      destruct (IH w1 (same_services_env_defined w w1 Hsame Hdef)
                  (same_services_accepts_all w w1 Hsame Hacc))
        as (w' & -> & Hsame' & Hfiles' & Hs' & Hc' & Hd' & Hm').
      exists w'. split; [reflexivity|].
      split; [by apply (same_services_trans w w1 w')|].
      split; [by etrans|]. cbn [length]. repeat split; lia.
    + rewrite decide_False by discriminate.
      rewrite (batch_process_not_tiff w walltime heap mem vmem stack_dir file Htiff).
      by apply IH.
Qed.

(** X14: a directory without any [.tif]/[.tiff] entry: the run prints the
    heap size and ends normally; no file is created, the manager is never
    called, whatever the environment holds. *)
Theorem X14_batch_run_without_stacks
    (w : world) (walltime stack_dir h : string) (mem vmem : Z) (entries : list string) :
  heap mem = Ok h ->
  listdir w stack_dir = Ok entries ->
  tiff_entries entries = [] ->
  batch_registration.main walltime mem vmem stack_dir w
  = (Ok tt, with_stdout (stdout w ++ ["setting heap to " +:+ h]) w).
Proof.
  intros Hheap Hlist Hnil.
  unfold batch_registration.main, bindM, lift, print, os_listdir.
  rewrite Hheap. cbn [listdir with_stdout]. rewrite Hlist.
  rewrite <- (app_nil_r entries). by rewrite batch_for_each_skip.
Qed.

Lemma X14_batch_run_without_stacks_witness :
  pbs_calls
    (batch_registration.main "4:00:00" 14 25 "stacks"
       (mkWorld ∅ "/work" "login.cluster" "torque" (fun n => 0)
          (fun n => (None, (15001, "Unknown Job Id"))) []
          (fun _ => Ok ["notes.txt"; "stack.png"; "tif"]) (fun p => p) ∅ 0 [])).2
  = [].
Proof.
  rewrite (X14_batch_run_without_stacks _ "4:00:00" "stacks" "13332" 14 25
             ["notes.txt"; "stack.png"; "tif"]).
  - reflexivity.
  - by vm_compute.
  - reflexivity.
  - by vm_compute.
Defined.

(** X15: when the manager accepts every job, the single-stack run ends
    normally after one submission per [.tif]/[.tiff] entry of the directory
    (other entries are ignored), every connection opened has been closed, and
    no temporary file is left: the files afterwards are among those before. *)
Theorem X15_batch_run_all_accepted
    (w : world) (walltime stack_dir h : string) (mem vmem : Z) (entries : list string) :
  env_defined w ->
  accepts_all w ->
  heap mem = Ok h ->
  listdir w stack_dir = Ok entries ->
  let out := batch_registration.main walltime mem vmem stack_dir w in
  let n := length (tiff_entries entries) in
  out.1 = Ok tt
  /\ count_calls pbs.is_submit (pbs_calls out.2)
     = (count_calls pbs.is_submit (pbs_calls w) + n)%nat
  /\ count_calls pbs.is_connect (pbs_calls out.2)
     = (count_calls pbs.is_connect (pbs_calls w) + n)%nat
  /\ count_calls pbs.is_disconnect (pbs_calls out.2)
     = (count_calls pbs.is_disconnect (pbs_calls w) + n)%nat
  /\ files out.2 ⊆ files w.
Proof.
  intros Hdef Hacc Hheap Hlist out n. subst out n.
  unfold batch_registration.main, bindM, lift, print, os_listdir.
  rewrite Hheap. cbn [listdir with_stdout]. rewrite Hlist.
  match goal with
  | |- context [for_each entries ?body ?w0] =>
      destruct (batch_for_each_accepted walltime h (pretty mem +:+ "gb")
                  (pretty vmem +:+ "gb") stack_dir entries w0 Hdef Hacc)
        as (w' & -> & _ & Hfiles & Hs & Hc & Hd & _)
  end.
  cbn [fst snd]. repeat split; assumption.
Qed.

Lemma accepts_all_accepting : accepts_all Examples.accepting.
Proof. intros n. reflexivity. Qed.

Lemma X15_batch_run_all_accepted_witness :
  count_calls pbs.is_submit
    (pbs_calls (batch_registration.main "4:00:00" 14 25 "stacks" Examples.accepting).2)
  = 3%nat.
Proof.
  destruct (X15_batch_run_all_accepted Examples.accepting "4:00:00" "stacks" "13332"
              14 25 Examples.directory) as (_ & Hs & _).
  - by apply env_defined_full.
  - apply accepts_all_accepting.
  - by vm_compute.
  - reflexivity.
  - rewrite Hs. by vm_compute.
Defined.

(** X16: a rejection ends the single-stack run: when the manager rejects the
    job of the first image stack of the listing, [main] raises the exception
    with the code and the message after that one submission, the stacks
    listed after it are not touched (nothing is printed for them), and the
    rejected job's script is still in its temporary file. *)
Theorem X16_batch_run_stops_at_rejection
    (w : world) (walltime stack_dir h : string) (mem vmem : Z)
    (skipped : list string) (file : string) (rest : list string) :
  env_defined w ->
  heap mem = Ok h ->
  listdir w stack_dir = Ok (skipped ++ file :: rest) ->
  tiff_entries skipped = [] ->
  is_tiff (ospath.splitext file).2 = true ->
  (next_reply w).2.1 ≠ 0 ->
  let out := batch_registration.main walltime mem vmem stack_dir w in
  out.1 = Raise (Exception (error_message (next_reply w).2.1 (next_reply w).2.2))
  /\ count_calls pbs.is_submit (pbs_calls out.2)
     = S (count_calls pbs.is_submit (pbs_calls w))
  /\ stdout out.2
     = stdout w ++ ["setting heap to " +:+ h;
                    "Creating job to process " +:+ ospath.join stack_dir file]
  /\ is_Some (files out.2 !! next_tmp w).
Proof.
  intros Hdef Hheap Hlist Hskip Htiff Hrej out. subst out.
  set (w0 := with_stdout (stdout w ++ ["setting heap to " +:+ h]) w).
  assert (Hmain : batch_registration.main walltime mem vmem stack_dir w
                  = for_each (skipped ++ file :: rest)
                      (batch_registration.process walltime h (pretty mem +:+ "gb")
                         (pretty vmem +:+ "gb") stack_dir) w0).
  { unfold batch_registration.main, bindM, lift, print, os_listdir.
    rewrite Hheap. cbn [listdir with_stdout]. by rewrite Hlist. }
  rewrite Hmain, batch_for_each_skip by assumption.
  cbn [for_each]. unfold bindM.
  destruct (batch_process_tiff w0 walltime h (pretty mem +:+ "gb")
              (pretty vmem +:+ "gb") stack_dir file Hdef Htiff)
    as (script & env & _ & _ & Hrun).
  rewrite Hrun. change (next_reply w0) with (next_reply w).
  rewrite bool_decide_true by assumption. cbn [fst snd].
  split; [reflexivity|].
  unfold after_submit, w0.
  cbn [pbs_calls stdout files with_files with_pbs_calls with_stdout].
  split; [|split].
  - rewrite count_calls_app. unfold submit_calls.
    change (count_calls pbs.is_submit [_; _; _]) with 1%nat. lia.
  - by rewrite <- app_assoc.
  - unfold next_tmp. cbn [mkstemp_count with_stdout]. rewrite lookup_insert_eq. eauto.
Qed.

Lemma X16_batch_run_stops_at_rejection_witness :
  count_calls pbs.is_submit
    (pbs_calls (batch_registration.main "4:00:00" 14 25 "stacks" Examples.rejecting).2)
  = 1%nat.
Proof.
  destruct (X16_batch_run_stops_at_rejection Examples.rejecting "4:00:00" "stacks"
              "13332" 14 25 [] "K1_B.tif" ["K1_G.tif"; "K2_B.tif"]) as (_ & Hs & _).
  - by apply env_defined_full.
  - by vm_compute.
  - reflexivity.
  - reflexivity.
  - by vm_compute.
  - by vm_compute.
  - exact Hs.
Defined.

(** ** The paired driver: grouping *)

Lemma add_stack_not_tiff (pairs : gmap string (gmap string string)) (file : string) :
  is_tiff (ospath.splitext file).2 = false ->
  multi_registration.add_stack pairs file = Ok pairs.
Proof.
  intros Hno. unfold multi_registration.add_stack.
  destruct (ospath.splitext file) as [filename extension]. cbn [snd] in Hno.
  by rewrite Hno.
Qed.

(** X17: the grouping looks at image stacks only: it gives the same result,
    or the same error, on a listing and on its [.tif]/[.tiff] entries. *)
Theorem X17_collect_ignores_other_entries
    (pairs : gmap string (gmap string string)) (entries : list string) :
  multi_registration.collect pairs entries
  = multi_registration.collect pairs (tiff_entries entries).
Proof.
  revert pairs. induction entries as [|file entries IH]; intros pairs; [reflexivity|].
  unfold tiff_entries. rewrite filter_cons. fold (tiff_entries entries).
  destruct (is_tiff (ospath.splitext file).2) eqn:Htiff.
  - rewrite decide_True by reflexivity. cbn [multi_registration.collect].
    destruct (multi_registration.add_stack pairs file) as [pairs'|e]; [|reflexivity].
    cbn [mbind result_bind bind]. apply IH.
  - rewrite decide_False by discriminate. cbn [multi_registration.collect].
    rewrite (add_stack_not_tiff pairs file Htiff). cbn [mbind result_bind bind]. apply IH.
Qed.

Lemma group_shape_size (stacks : gmap string string) :
  group_shape stacks ->
  (size stacks = 1%nat /\ (exists file, stacks !! "B" = Some file
                                         \/ (stacks !! "B" = None
                                             /\ stacks !! "G" = Some file)))
  \/ (size stacks = 2%nat /\ exists b g, stacks !! "B" = Some b /\ stacks !! "G" = Some g).
Proof.
  intros [[b ->] | [[g ->] | (b & g & ->)]].
  - left. rewrite map_size_singleton. split; [reflexivity|].
    exists b. left. apply lookup_singleton_eq.
  - left. rewrite map_size_singleton. split; [reflexivity|].
    exists g. right. split; [by apply lookup_singleton_ne | apply lookup_singleton_eq].
  - right. split.
    + rewrite map_size_insert_None by (by apply lookup_singleton_ne).
      by rewrite map_size_singleton.
    + exists b, g. split; [apply lookup_insert_eq|].
      rewrite lookup_insert_ne by done. apply lookup_singleton_eq.
Qed.

Lemma group_shape_insert (stacks : gmap string string) (channel file : string) :
  stacks = ∅ \/ group_shape stacks ->
  (size stacks < 2)%nat ->
  channel = "B" \/ channel = "G" ->
  group_shape (<[channel := file]> stacks).
Proof.
  intros [-> | [[b ->] | [[g ->] | (b & g & ->)]]] Hsize Hch.
  - rewrite insert_empty. destruct Hch as [-> | ->]; [left | right; left]; eauto.
  - destruct Hch as [-> | ->].
    + left. exists file. apply insert_singleton_eq.
    + right. right. exists b, file.
      rewrite <- !insert_empty. by apply insert_insert_ne.
  - destruct Hch as [-> | ->].
    + right. right. by exists file, g.
    + right. left. exists file. apply insert_singleton_eq.
  - exfalso. rewrite map_size_insert_None in Hsize by (by apply lookup_singleton_ne).
    rewrite map_size_singleton in Hsize. lia.
Qed.

Lemma add_stack_shape (pairs pairs' : gmap string (gmap string string)) (file : string) :
  (forall id stacks, pairs !! id = Some stacks -> group_shape stacks) ->
  multi_registration.add_stack pairs file = Ok pairs' ->
  forall id stacks, pairs' !! id = Some stacks -> group_shape stacks.
Proof.
  intros Hinv. unfold multi_registration.add_stack.
  destruct (ospath.splitext file) as [filename extension].
  destruct (is_tiff extension); [|by intros [= <-]].
  destruct (multi_registration.index _ 0) as [id|]; [|discriminate].
  cbn [mbind result_bind bind].
  destruct (multi_registration.index _ 1) as [channel|]; [|discriminate].
  cbn [mbind result_bind bind]. unfold multi_registration.assert.
  destruct (bool_decide (channel ∈ ["B"; "G"])) eqn:Hch;
    cbn [mbind result_bind bind]; [|discriminate].
  apply bool_decide_eq_true in Hch.
  set (pairs1 := if bool_decide (is_Some (pairs !! id)) then pairs else <[id:=∅]> pairs).
  assert (Hpairs1 : forall id', id' ≠ id -> pairs1 !! id' = pairs !! id').
  { intros id' Hne. subst pairs1. case_bool_decide; [reflexivity|].
    by rewrite lookup_insert_ne. }
  assert (Hstacks : default ∅ (pairs1 !! id) = ∅
                    \/ group_shape (default ∅ (pairs1 !! id))).
  { subst pairs1. case_bool_decide as Hsome.
    - destruct Hsome as [st Hst]. rewrite Hst. right. by apply (Hinv id).
    - rewrite lookup_insert_eq. by left. }
  destruct (bool_decide (size (default ∅ (pairs1 !! id)) < 2)%nat) eqn:Hsize;
    cbn [mbind result_bind bind]; [|discriminate].
  apply bool_decide_eq_true in Hsize.
  assert (Hch' : channel = "B" \/ channel = "G").
  { apply elem_of_cons in Hch as [Hch | Hch]; [by left|].
    apply elem_of_cons in Hch as [Hch | Hch]; [by right|].
    by apply elem_of_nil in Hch. }
  assert (Hnew : forall m, m = <[id := <[channel := file]> (default ∅ (pairs1 !! id))]> pairs1 ->
                 forall id' stacks, m !! id' = Some stacks -> group_shape stacks).
  { intros m -> id' stacks. destruct (decide (id' = id)) as [-> | Hne].
    - rewrite lookup_insert_eq. intros [= <-]. by apply group_shape_insert.
    - rewrite lookup_insert_ne by done. rewrite Hpairs1 by done. apply Hinv. }
  destruct (bool_decide (channel = "B")) eqn:HB; intros [= <-].
  - apply Hnew. apply bool_decide_eq_true in HB. by rewrite HB.
  - apply Hnew. apply bool_decide_eq_false in HB.
    destruct Hch' as [-> | ->]; [contradiction | reflexivity].
Qed.

Lemma collect_shape (entries : list string) (pairs pairs' : gmap string (gmap string string)) :
  (forall id stacks, pairs !! id = Some stacks -> group_shape stacks) ->
  multi_registration.collect pairs entries = Ok pairs' ->
  forall id stacks, pairs' !! id = Some stacks -> group_shape stacks.
Proof.
  revert pairs. induction entries as [|file entries IH]; intros pairs Hinv.
  - by intros [= <-].
  - cbn [multi_registration.collect].
    destruct (multi_registration.add_stack pairs file) as [pairs1|e] eqn:Hadd;
      [|discriminate].
    cbn [mbind result_bind bind]. intros Hrest. apply (IH pairs1); [|exact Hrest].
    exact (add_stack_shape pairs pairs1 file Hinv Hadd).
Qed.

(** X18: whenever the grouping of a listing succeeds, every identifier has
    either a single stack, filed under B or under G, or exactly one B and one
    G stack; so the lookups [stacks['B']] and [stacks['G']] of the second loop
    cannot fail. *)
Theorem X18_groups_are_singles_or_pairs
    (entries : list string) (pairs : gmap string (gmap string string))
    (id : string) (stacks : gmap string string) :
  multi_registration.collect ∅ entries = Ok pairs ->
  pairs !! id = Some stacks ->
  (size stacks = 1%nat /\ (exists file, stacks !! "B" = Some file
                                         \/ (stacks !! "B" = None
                                             /\ stacks !! "G" = Some file)))
  \/ (size stacks = 2%nat /\ exists b g, stacks !! "B" = Some b /\ stacks !! "G" = Some g).
Proof.
  intros Hcollect Hid. apply group_shape_size.
  apply (collect_shape entries ∅ pairs) with (id := id); [|exact Hcollect|exact Hid].
  intros id' stacks'. by rewrite lookup_empty.
Qed.

Lemma X18_groups_are_singles_or_pairs_witness :
  (size (<["B" := "K1_B.tif"]> (<["G" := "K1_G.tif"]> (∅ : gmap string string))) = 1%nat
   /\ (exists file,
         (<["B" := "K1_B.tif"]> (<["G" := "K1_G.tif"]> (∅ : gmap string string))) !! "B"
         = Some file
         \/ ((<["B" := "K1_B.tif"]> (<["G" := "K1_G.tif"]> (∅ : gmap string string))) !! "B"
             = None
             /\ (<["B" := "K1_B.tif"]> (<["G" := "K1_G.tif"]> (∅ : gmap string string))) !! "G"
                = Some file)))
  \/ (size (<["B" := "K1_B.tif"]> (<["G" := "K1_G.tif"]> (∅ : gmap string string))) = 2%nat
      /\ exists b g,
           (<["B" := "K1_B.tif"]> (<["G" := "K1_G.tif"]> (∅ : gmap string string))) !! "B"
           = Some b
           /\ (<["B" := "K1_B.tif"]> (<["G" := "K1_G.tif"]> (∅ : gmap string string))) !! "G"
              = Some g).
Proof.
  apply (X18_groups_are_singles_or_pairs Examples.directory Examples.pairs "K1").
  - by vm_compute.
  - by vm_compute.
Defined.

Lemma split_from_absent (sep : ascii) (cur s : string) :
  contains sep s = false -> ospath.split_from sep cur s = [cur +:+ s].
Proof.
  revert cur. induction s as [|a s IH]; intros cur Hs.
  - cbn [ospath.split_from]. by rewrite string_app_nil_r.
  - cbn [contains] in Hs. apply orb_false_iff in Hs as [Ha Hs].
    cbn [ospath.split_from]. rewrite Ha, (IH _ Hs), string_app_assoc. reflexivity.
Qed.

Lemma split_from_first (sep : ascii) (cur a b : string) :
  contains sep a = false ->
  ospath.split_from sep cur (a +:+ String sep b)
  = (cur +:+ a) :: ospath.split_from sep EmptyString b.
Proof.
  revert cur. induction a as [|x a IH]; intros cur Ha.
  - change (EmptyString +:+ String sep b) with (String sep b).
    cbn [ospath.split_from]. unfold ospath.ascii_eqb.
    rewrite bool_decide_true by reflexivity. by rewrite string_app_nil_r.
  - cbn [contains] in Ha. apply orb_false_iff in Ha as [Hx Ha].
    rewrite string_app_cons. cbn [ospath.split_from]. rewrite Hx, (IH _ Ha).
    by rewrite string_app_assoc.
Qed.

(** The first two parts of [ID_CHANNEL] and of [ID_CHANNEL_more]. *)
Lemma split_id_channel (id channel more : string) :
  contains "_" id = false ->
  contains "_" channel = false ->
  more = EmptyString \/ (exists x, more = String "_" x) ->
  exists rest, ospath.split "_" (id +:+ String "_" (channel +:+ more))
               = id :: channel :: rest.
Proof.
  intros Hid Hch Hmore. unfold ospath.split.
  rewrite (split_from_first "_" EmptyString id _ Hid).
  change (EmptyString +:+ id) with id.
  destruct Hmore as [-> | [x ->]].
  - rewrite string_app_nil_r, (split_from_absent "_" EmptyString channel Hch). eauto.
  - rewrite (split_from_first "_" EmptyString channel x Hch). eauto.
Qed.

(** X19: what the grouping does with a stack named [ID_CHANNEL.ext] or
    [ID_CHANNEL_more.ext]: a channel other than B and G fails the assertion;
    so does a stack for an identifier that already has two; otherwise the
    file is filed under its identifier and channel, replacing without notice an
    earlier stack of the same identifier and channel. *)
Theorem X19_add_stack_by_name
    (pairs : gmap string (gmap string string)) (id channel more ext : string) :
  let stem := id +:+ String "_" (channel +:+ more) in
  let file := stem +:+ String "." ext in
  is_stem_ext stem ext ->
  is_tiff (String "." ext) = true ->
  contains "_" id = false ->
  contains "_" channel = false ->
  more = EmptyString \/ (exists x, more = String "_" x) ->
  (channel ≠ "B" -> channel ≠ "G" ->
   multi_registration.add_stack pairs file = Raise AssertionError)
  /\ (channel = "B" \/ channel = "G" ->
      (pairs !! id = None ->
       multi_registration.add_stack pairs file = Ok (<[id := {[channel := file]}]> pairs))
      /\ (forall stacks, pairs !! id = Some stacks ->
            ((size stacks < 2)%nat ->
             multi_registration.add_stack pairs file
             = Ok (<[id := <[channel := file]> stacks]> pairs))
            /\ ((2 <= size stacks)%nat ->
                multi_registration.add_stack pairs file = Raise AssertionError))).
Proof.
  intros stem file Hstem Htiff Hid Hch Hmore.
  destruct (splitext_stem_ext EmptyString stem ext (or_introl eq_refl) Hstem)
    as [Hsplit _].
  change (EmptyString +:+ stem +:+ String "." ext) with file in Hsplit.
  change (EmptyString +:+ stem) with stem in Hsplit.
  destruct (split_id_channel id channel more Hid Hch Hmore) as [rest Hparts].
  fold stem in Hparts.
  unfold multi_registration.add_stack. rewrite Hsplit, Htiff, Hparts.
  cbn [multi_registration.index lookup list_lookup mbind result_bind bind]. cbn zeta.
  unfold multi_registration.assert. split.
  - intros HB HG. rewrite (bool_decide_false (channel ∈ ["B"; "G"])); [reflexivity|].
    intros Hin. apply elem_of_cons in Hin as [Hin | Hin]; [contradiction|].
    apply elem_of_cons in Hin as [Hin | Hin]; [contradiction|].
    by apply elem_of_nil in Hin.
  - intros Hin. rewrite (bool_decide_true (channel ∈ ["B"; "G"]))
      by (destruct Hin as [-> | ->]; [left | right; left]).
    cbn [mbind result_bind bind]. split.
    + intros Hnone.
      rewrite (bool_decide_false (is_Some (pairs !! id)))
        by (rewrite Hnone; intros [? [=]]).
      rewrite lookup_insert_eq. unfold default. cbn [from_option Datatypes.id].
      rewrite (bool_decide_true (size _ < 2)%nat) by (rewrite map_size_empty; lia).
      cbn [mbind result_bind bind].
      destruct Hin as [-> | ->];
        [rewrite bool_decide_true by reflexivity
        | rewrite bool_decide_false by discriminate];
        by rewrite insert_insert_eq, insert_empty.
    + intros stacks Hsome.
      rewrite (bool_decide_true (is_Some (pairs !! id))) by (rewrite Hsome; eauto).
      rewrite Hsome. unfold default. cbn [from_option Datatypes.id]. split; intros Hsize.
      * rewrite (bool_decide_true (size _ < 2)%nat) by assumption.
        cbn [mbind result_bind bind].
        destruct Hin as [-> | ->];
          [by rewrite bool_decide_true | by rewrite bool_decide_false].
      * rewrite (bool_decide_false (size _ < 2)%nat) by lia. reflexivity.
Qed.

Lemma X19_add_stack_by_name_witness :
  multi_registration.add_stack (<["K1" := {["B" := "K1_B_old.tif"]}]> ∅) "K1_B_new.TIF"
  = Ok (<["K1" := <["B" := "K1_B_new.TIF"]> {["B" := "K1_B_old.tif"]}]>
          (<["K1" := {["B" := "K1_B_old.tif"]}]> ∅)).
Proof.
  destruct (X19_add_stack_by_name (<["K1" := {["B" := "K1_B_old.tif"]}]> ∅)
              "K1" "B" "_new" "TIF") as [_ Hfile].
  - by vm_compute.
  - by vm_compute.
  - reflexivity.
  - reflexivity.
  - right. by exists "new".
  - destruct (Hfile (or_introl eq_refl)) as [_ Hsome].
    destruct (Hsome {["B" := "K1_B_old.tif"]}) as [Hok _]; [by vm_compute|].
    apply Hok. by vm_compute.
Defined.

(** X20: an image stack whose name has no underscore has no channel part:
    the grouping stops with [IndexError] when it reaches it. *)
Theorem X20_stack_without_channel_raises
    (pairs : gmap string (gmap string string)) (stem ext : string)
    (rest : list string) :
  is_stem_ext stem ext ->
  is_tiff (String "." ext) = true ->
  contains "_" stem = false ->
  multi_registration.add_stack pairs (stem +:+ String "." ext) = Raise IndexError
  /\ multi_registration.collect pairs ((stem +:+ String "." ext) :: rest)
     = Raise IndexError.
Proof.
  intros Hstem Htiff Hno.
  destruct (splitext_stem_ext EmptyString stem ext (or_introl eq_refl) Hstem)
    as [Hsplit _].
  change (EmptyString +:+ stem +:+ String "." ext) with (stem +:+ String "." ext)
    in Hsplit.
  change (EmptyString +:+ stem) with stem in Hsplit.
  assert (Hadd : multi_registration.add_stack pairs (stem +:+ String "." ext)
                 = Raise IndexError).
  { unfold multi_registration.add_stack. rewrite Hsplit, Htiff.
    unfold ospath.split. rewrite (split_from_absent "_" EmptyString stem Hno).
    reflexivity. }
  split; [exact Hadd|]. cbn [multi_registration.collect]. by rewrite Hadd.
Qed.

Lemma X20_stack_without_channel_raises_witness :
  multi_registration.collect ∅ ["K3.tif"; "K1_B.tif"] = Raise IndexError.
Proof.
  apply (X20_stack_without_channel_raises ∅ "K3" "tif" ["K1_B.tif"]).
  - by vm_compute.
  - by vm_compute.
  - reflexivity.
Defined.

(** ** The paired driver on a whole directory *)

(** One item of the second loop, the manager accepting: a skip or one job. *)
Lemma multi_process_accepted (w : world) (walltime trans heap mem vmem id : string)
    (stacks : gmap string string) (display_number : Z) :
  env_defined w ->
  accepts_all w ->
  group_shape stacks ->
  exists w' display_number',
    multi_registration.process walltime trans heap mem vmem id stacks display_number w
    = (Ok display_number', w')
    /\ same_services w w'
    /\ files w' ⊆ files w
    /\ count_calls pbs.is_submit (pbs_calls w')
       = (count_calls pbs.is_submit (pbs_calls w)
          + length (complete_pairs [(id, stacks)]))%nat
    /\ count_calls pbs.is_connect (pbs_calls w')
       = (count_calls pbs.is_connect (pbs_calls w)
          + length (complete_pairs [(id, stacks)]))%nat
    /\ count_calls pbs.is_disconnect (pbs_calls w')
       = (count_calls pbs.is_disconnect (pbs_calls w)
          + length (complete_pairs [(id, stacks)]))%nat
    /\ display_number' = display_number + Z.of_nat (length (complete_pairs [(id, stacks)])).
Proof.
  intros Hdef Hacc Hshape.
  destruct (group_shape_size stacks Hshape)
    as [(Hsize & file & Hfile) | (Hsize & b & g & HB & HG)].
  - rewrite (multi_process_single w walltime trans heap mem vmem id stacks
               display_number file Hsize Hfile).
    assert (Hnone : complete_pairs [(id, stacks)] = []).
    { unfold complete_pairs. rewrite filter_cons, decide_False; [reflexivity|].
      cbn [snd]. lia. }
    rewrite Hnone. cbn [length]. eexists _, _. split; [reflexivity|].
    split; [by repeat split|]. split; [reflexivity|].
    cbn [pbs_calls with_stdout]. repeat split; lia.
  - destruct (multi_process_pair w walltime trans heap mem vmem id stacks display_number
                b g Hdef) as (script & env & _ & _ & Hrun);
      [lia | assumption | assumption |].
    rewrite bool_decide_false in Hrun by (intros Hne; apply Hne, Hacc).
    assert (Hone : complete_pairs [(id, stacks)] = [(id, stacks)]).
    { unfold complete_pairs. by rewrite filter_cons, decide_True. }
    rewrite Hone. cbn [length]. eexists _, _. split; [exact Hrun|].
    split; [by repeat split|]. split; [apply files_after_remove_subseteq|].
    unfold after_remove, after_submit.
    cbn [pbs_calls with_files with_pbs_calls with_stdout].
    rewrite !count_calls_app. unfold submit_calls.
    change (count_calls pbs.is_submit [_; _; _]) with 1%nat.
    change (count_calls pbs.is_connect [_; _; _]) with 1%nat.
    change (count_calls pbs.is_disconnect [_; _; _]) with 1%nat.
    repeat split; lia.
Qed.

Lemma complete_pairs_cons (item : string * gmap string string)
    (items : list (string * gmap string string)) :
  length (complete_pairs (item :: items))
  = (length (complete_pairs [item]) + length (complete_pairs items))%nat.
Proof.
  unfold complete_pairs. rewrite !filter_cons, filter_nil.
  case_decide; cbn [length]; lia.
Qed.

Lemma multi_process_all_accepted (walltime trans heap mem vmem : string)
    (items : list (string * gmap string string)) (display_number : Z) (w : world) :
  env_defined w ->
  accepts_all w ->
  Forall (fun item => group_shape item.2) items ->
  exists w',
    multi_registration.process_all walltime trans heap mem vmem items display_number w
    = (Ok tt, w')
    /\ same_services w w'
    /\ files w' ⊆ files w
    /\ count_calls pbs.is_submit (pbs_calls w')
       = (count_calls pbs.is_submit (pbs_calls w) + length (complete_pairs items))%nat
    /\ count_calls pbs.is_connect (pbs_calls w')
       = (count_calls pbs.is_connect (pbs_calls w) + length (complete_pairs items))%nat
    /\ count_calls pbs.is_disconnect (pbs_calls w')
       = (count_calls pbs.is_disconnect (pbs_calls w) + length (complete_pairs items))%nat.
Proof.
  intros Hdef Hacc Hitems. revert display_number w Hdef Hacc.
  induction Hitems as [|[id stacks] items Hshape _ IH]; intros display_number w Hdef Hacc.
  - exists w. change (complete_pairs []) with (@nil (string * gmap string string)).
    cbn [multi_registration.process_all length]. unfold ret.
    split; [reflexivity|]. split; [apply same_services_refl|].
    split; [reflexivity|]. repeat split; lia.
  - cbn [multi_registration.process_all]. unfold bindM at 1.
    destruct (multi_process_accepted w walltime trans heap mem vmem id stacks
                display_number Hdef Hacc Hshape)
      as (w1 & dn1 & -> & Hsame & Hfiles & Hs & Hc & Hd & _).
    destruct (IH dn1 w1 (same_services_env_defined w w1 Hsame Hdef)
                (same_services_accepts_all w w1 Hsame Hacc))
      as (w' & -> & Hsame' & Hfiles' & Hs' & Hc' & Hd').
    exists w'. split; [reflexivity|].
    split; [by apply (same_services_trans w w1 w')|].
    split; [by etrans|].
    rewrite (complete_pairs_cons (id, stacks) items). repeat split; lia.
Qed.

(** X21: for any listing whose grouping succeeds, with a manager that
    accepts every job: the paired run ends normally after exactly one
    submission per identifier that has both a B and a G stack (lone stacks are
    only reported), every connection opened has been closed, and no temporary
    file is left. *)
Theorem X21_paired_run_all_accepted
    (w : world) (walltime trans stack_dir h : string) (mem vmem : Z)
    (entries : list string) (pairs : gmap string (gmap string string)) :
  env_defined w ->
  accepts_all w ->
  heap mem = Ok h ->
  listdir w stack_dir = Ok entries ->
  multi_registration.collect ∅ entries = Ok pairs ->
  let out := multi_registration.main walltime mem vmem trans stack_dir w in
  let n := length (complete_pairs (map_to_list pairs)) in
  out.1 = Ok tt
  /\ count_calls pbs.is_submit (pbs_calls out.2)
     = (count_calls pbs.is_submit (pbs_calls w) + n)%nat
  /\ count_calls pbs.is_connect (pbs_calls out.2)
     = (count_calls pbs.is_connect (pbs_calls w) + n)%nat
  /\ count_calls pbs.is_disconnect (pbs_calls out.2)
     = (count_calls pbs.is_disconnect (pbs_calls w) + n)%nat
  /\ files out.2 ⊆ files w.
Proof.
  intros Hdef Hacc Hheap Hlist Hcollect out n. subst out n.
  assert (Hitems : Forall (fun item => group_shape item.2) (map_to_list pairs)).
  { apply Forall_forall. intros [id stacks] Hin. cbn [snd].
    apply elem_of_map_to_list in Hin.
    apply (collect_shape entries ∅ pairs) with (id := id);
      [|exact Hcollect|exact Hin].
    intros id' stacks'. by rewrite lookup_empty. }
  unfold multi_registration.main, bindM, lift, print, gets, os_listdir.
  rewrite Hheap. cbn [listdir with_stdout abspath]. rewrite Hlist, Hcollect.
  match goal with
  | |- context [multi_registration.process_all _ _ _ _ _ _ _ ?w0] =>
      destruct (multi_process_all_accepted walltime trans h (pretty mem +:+ "gb")
                  (pretty vmem +:+ "gb") (map_to_list pairs) 1000 w0 Hdef Hacc Hitems)
        as (w' & -> & _ & Hfiles & Hs & Hc & Hd)
  end.
  cbn [fst snd]. repeat split; assumption.
Qed.

Lemma X21_paired_run_all_accepted_witness :
  count_calls pbs.is_submit
    (pbs_calls (multi_registration.main "4:00:00" 14 25 "Affine" "stacks"
                  Examples.accepting).2)
  = 1%nat.
Proof.
  destruct (X21_paired_run_all_accepted Examples.accepting "4:00:00" "Affine" "stacks"
              "13332" 14 25 Examples.directory Examples.pairs) as (_ & Hs & _).
  - by apply env_defined_full.
  - apply accepts_all_accepting.
  - by vm_compute.
  - reflexivity.
  - by vm_compute.
  - rewrite Hs. by vm_compute.
Defined.

(** X22: when the grouping fails (a stack without channel, a channel other
    than B and G, a third stack for an identifier), the paired run ends with
    that error after its three opening messages: no job is submitted and no
    file created, not even for complete pairs listed before the offending
    entry. *)
Theorem X22_paired_run_stops_on_bad_name
    (w : world) (walltime trans stack_dir h : string) (mem vmem : Z)
    (entries : list string) (e : exn) :
  heap mem = Ok h ->
  listdir w stack_dir = Ok entries ->
  multi_registration.collect ∅ entries = Raise e ->
  let out := multi_registration.main walltime mem vmem trans stack_dir w in
  out.1 = Raise e
  /\ pbs_calls out.2 = pbs_calls w
  /\ files out.2 = files w
  /\ stdout out.2
     = stdout w ++ [nl +:+ "MultiStackReg batch submission tool 0.1.0" +:+ nl;
                    "setting Fiji Java max heap to " +:+ h;
                    "Processing image stacks in " +:+ abspath w stack_dir +:+ nl].
Proof.
  intros Hheap Hlist Hcollect out. subst out.
  unfold multi_registration.main, bindM, lift, print, gets, os_listdir.
  rewrite Hheap. cbn [listdir with_stdout abspath]. rewrite Hlist, Hcollect.
  cbn [fst snd pbs_calls files stdout with_stdout].
  repeat split. by rewrite <- !app_assoc.
Qed.

Lemma X22_paired_run_stops_on_bad_name_witness :
  pbs_calls
    (multi_registration.main "4:00:00" 14 25 "Affine" "stacks"
       (mkWorld Examples.full_environ "/work" "login.cluster" "torque"
          (fun n => Z.of_nat n + 1)
          (fun n => (Some (pretty n +:+ ".torque"), (0, EmptyString)))
          [] (fun _ => Ok ["K1_B.tif"; "K1_G.tif"; "K2_R.tif"]) (fun p => p) ∅ 0 [])).2
  = [].
Proof.
  destruct (X22_paired_run_stops_on_bad_name
              (mkWorld Examples.full_environ "/work" "login.cluster" "torque"
                 (fun n => Z.of_nat n + 1)
                 (fun n => (Some (pretty n +:+ ".torque"), (0, EmptyString)))
                 [] (fun _ => Ok ["K1_B.tif"; "K1_G.tif"; "K2_R.tif"]) (fun p => p) ∅ 0 [])
              "4:00:00" "Affine" "stacks" "13332" 14 25
              ["K1_B.tif"; "K1_G.tif"; "K2_R.tif"] AssertionError) as (_ & Hcalls & _).
  - by vm_compute.
  - reflexivity.
  - by vm_compute.
  - exact Hcalls.
Defined.

(** ** Rendering, once more *)

Lemma glomeruli_token_unset (background_in glomeruli_in : string)
    (background_out transformations_out : option string)
    (transformation_type : string) (heap : option string) (display : Z) :
  truthy background_out = true ->
  exists key,
    BatchScript.init background_in glomeruli_in background_out None
      transformations_out transformation_type heap display !! key = Some PNone.
Proof.
  intros Hbo. exists "GLOMERULI_OUT". unfold BatchScript.init. rewrite Hbo.
  destruct (truthy transformations_out), (truthy heap); by simplify_map_eq.
Qed.

(** X23: the paired script built by [BatchScript] renders in every case but
    one: a non-empty background output given without any glomeruli output. *)
Theorem X23_batch_script_renders_unless_glomeruli_unset
    (background_in glomeruli_in : string)
    (background_out glomeruli_out transformations_out : option string)
    (transformation_type : string) (heap : option string) (display : Z) :
  is_ok (generate_script BatchScript.script_template
           (BatchScript.init background_in glomeruli_in background_out glomeruli_out
              transformations_out transformation_type heap display)) = false
  <-> truthy background_out = true /\ glomeruli_out = None.
Proof.
  destruct (batch_init_tokens background_in glomeruli_in background_out glomeruli_out
              transformations_out transformation_type heap display) as [Honly Hkeys].
  cbn zeta in Honly, Hkeys.
  set (tokens := BatchScript.init background_in glomeruli_in background_out glomeruli_out
                   transformations_out transformation_type heap display) in *.
  split.
  - intros Hfail.
    destruct (decide (tokens !! "GLOMERULI_OUT" = Some PNone)) as [Hkey | Hno].
    + by destruct (Honly "GLOMERULI_OUT" Hkey) as (_ & ? & ?).
    + rewrite generate_batch_script in Hfail; [discriminate| |exact Hkeys].
      intros key Hkey. destruct (Honly key Hkey) as (-> & _). contradiction.
  - intros [Hbo ->].
    destruct (glomeruli_token_unset background_in glomeruli_in background_out
                transformations_out transformation_type heap display Hbo) as [key Hkey].
    destruct (generate_script_none tokens BatchScript.script_template)
      as (key' & _ & ->); [by exists key | reflexivity].
Qed.

Lemma X23_batch_script_renders_unless_glomeruli_unset_witness :
  is_ok (generate_script BatchScript.script_template
           (BatchScript.init "K1_B.tif" "K1_G.tif" (Some "out_B.tif") (Some "out_G.tif")
              None "Affine" None 1000)) = true.
Proof.
  destruct (X23_batch_script_renders_unless_glomeruli_unset "K1_B.tif" "K1_G.tif"
              (Some "out_B.tif") (Some "out_G.tif") None "Affine" None 1000) as [Hfail _].
  destruct (is_ok _); [reflexivity|].
  by destruct (Hfail eq_refl) as [_ ?].
Defined.

Lemma substitute_literal (tokens : gmap string pyval) (text : string) :
  contains "$" text = false ->
  Template.convert_all tokens (Template.scan Template.Text text) = Ok text.
Proof.
  induction text as [|a text IH]; intros Hno; [reflexivity|].
  cbn [contains] in Hno. apply orb_false_iff in Hno as [Ha Hno].
  cbn [Template.scan]. unfold Template.is_dollar. rewrite Ha.
  cbn [Template.convert_all Template.convert mbind result_bind bind].
  by rewrite (IH Hno).
Qed.

(** X24: a template without any [$] has no placeholder: with no token set to
    [None] it is rendered as it is, whatever the token map holds. *)
Theorem X24_template_without_dollar_unchanged
    (template : string) (tokens : gmap string pyval) :
  contains "$" template = false ->
  (forall key, tokens !! key ≠ Some PNone) ->
  generate_script template tokens = Ok template.
Proof.
  intros Hno Hnone. rewrite generate_script_substitute by exact Hnone.
  by apply substitute_literal.
Qed.

Lemma X24_template_without_dollar_unchanged_witness :
  generate_script "#!/bin/bash" (SubmitScript.init "stack.tif" None None)
  = Ok "#!/bin/bash".
Proof.
  apply X24_template_without_dollar_unchanged.
  - reflexivity.
  - apply submit_init_tokens.
Defined.

(** ** The command line *)

Section CommandLine.

Variable int : string -> result Z.

(** X25: in both drivers the short help option is not honoured: the loop
    tests for ["h"], while the option arrives as ["-h"], so [-h] changes
    nothing and the run goes on with the remaining options; only [--help]
    stops with exit code 0, and it does so before any later option is looked
    at. *)
Theorem X25_short_help_option_ignored
    (arg : string) (rest : list (string * string)) (s : cli.settings) :
  cli.batch_options int (("-h", arg) :: rest) s = cli.batch_options int rest s
  /\ cli.multi_options int (("-h", arg) :: rest) s = cli.multi_options int rest s
  /\ cli.batch_options int (("--help", arg) :: rest) s = Ok (Some 0, s)
  /\ cli.multi_options int (("--help", arg) :: rest) s = Ok (Some 0, s)
  /\ (forall stack_dir,
        cli.batch_front int (cli.Parsed [("-h", arg)] [stack_dir])
        = Ok (cli.Proceed cli.defaults stack_dir, [])).
Proof.
  destruct s as [wt m v t].
  repeat split.
Qed.


End CommandLine.


(** ** The paired driver: lone stacks and the example directory *)

(** C9: whatever the order of the directory listing, [K1_B.tif] and
    [K1_G.tif] are grouped under K1 and [K2_B.tif] stays alone under K2; the
    run makes exactly one submission, the job [align_K1], reports K2's stack as
    unmatched and returns normally.  For every listing and every identifier
    whose group has a single stack, be it a B or a G stack, the second loop
    reports that stack as unmatched and goes on: it neither calls the manager,
    nor creates a file, nor raises, and the display number stays; and with
    a manager that accepts every job, the run over any listing whose grouping
    succeeds returns normally after one submission per complete pair, none
    for a lone stack. *)
Theorem C9_pair_submitted_lone_stack_skipped
    (w : world) (walltime trans stack_dir h : string) (mem vmem : Z)
    (entries : list string) :
  env_defined w ->
  heap mem = Ok h ->
  listdir w stack_dir = Ok entries ->
  Examples.directory ≡ₚ entries ->
  (next_reply w).2.1 = 0 ->
  let out := multi_registration.main walltime mem vmem trans stack_dir w in
  multi_registration.collect ∅ entries = Ok Examples.pairs
  /\ (forall (listing : list string) (pairs : gmap string (gmap string string))
             (id : string) (stacks : gmap string string),
        multi_registration.collect ∅ listing = Ok pairs ->
        pairs !! id = Some stacks ->
        size stacks = 1%nat ->
        exists file,
          (stacks = {["B" := file]} \/ stacks = {["G" := file]})
          /\ forall walltime' trans' heap' mem' vmem' display_number w',
               multi_registration.process walltime' trans' heap' mem' vmem' id stacks
                 display_number w'
               = (Ok display_number,
                  with_stdout (stdout w' ++ [unmatched_line file]) w'))
  /\ (forall id file walltime' trans' heap' mem' vmem' display_number w',
        multi_registration.process walltime' trans' heap' mem' vmem' id
          {["G" := file]} display_number w'
        = (Ok display_number, with_stdout (stdout w' ++ [unmatched_line file]) w')
        /\ multi_registration.process walltime' trans' heap' mem' vmem' id
             {["B" := file]} display_number w'
           = (Ok display_number, with_stdout (stdout w' ++ [unmatched_line file]) w'))
  /\ (forall (w2 : world) (dir : string) (listing : list string)
             (pairs : gmap string (gmap string string)),
        env_defined w2 ->
        accepts_all w2 ->
        listdir w2 dir = Ok listing ->
        multi_registration.collect ∅ listing = Ok pairs ->
        let out2 := multi_registration.main walltime mem vmem trans dir w2 in
        out2.1 = Ok tt
        /\ count_calls pbs.is_submit (pbs_calls out2.2)
           = (count_calls pbs.is_submit (pbs_calls w2)
              + length (complete_pairs (map_to_list pairs)))%nat)
  /\ (forall display_number w',
        multi_registration.process walltime trans h (pretty mem +:+ "gb")
          (pretty vmem +:+ "gb") "K2" (<["B" := "K2_B.tif"]> ∅) display_number w'
        = (Ok display_number, with_stdout (stdout w' ++ [unmatched_line "K2_B.tif"]) w'))
  /\ out.1 = Ok tt
  /\ (exists attropl,
        pbs_calls out.2
        = pbs_calls w
          ++ [pbs.pbs_connect (pbs_default w)
                (connect_reply w (count_calls pbs.is_connect (pbs_calls w)));
              pbs.pbs_submit (connect_reply w (count_calls pbs.is_connect (pbs_calls w)))
                attropl (next_tmp w);
              pbs.pbs_disconnect
                (connect_reply w (count_calls pbs.is_connect (pbs_calls w)))]
        /\ pbs.mkAttr (Some pbs.ATTR_N) None (Some "align_K1") ∈ attropl)
  /\ count_calls pbs.is_submit (pbs_calls out.2)
     = S (count_calls pbs.is_submit (pbs_calls w))
  /\ unmatched_line "K2_B.tif" ∈ stdout out.2.
Proof.
  intros Hdef Hheap Hlist Hperm Haccept out.
  pose proof (collect_directory entries Hperm) as Hcollect.
  assert (Hlone : forall id file walltime' trans' heap' mem' vmem' display_number w',
            multi_registration.process walltime' trans' heap' mem' vmem' id
              {["G" := file]} display_number w'
            = (Ok display_number, with_stdout (stdout w' ++ [unmatched_line file]) w')
            /\ multi_registration.process walltime' trans' heap' mem' vmem' id
                 {["B" := file]} display_number w'
               = (Ok display_number,
                  with_stdout (stdout w' ++ [unmatched_line file]) w')).
  { intros id file walltime' trans' heap' mem' vmem' display_number w'. split.
    - apply multi_process_single; [apply map_size_singleton|].
      right. split; [by apply lookup_singleton_ne | apply lookup_singleton_eq].
    - apply multi_process_single; [apply map_size_singleton|].
      left. apply lookup_singleton_eq. }
  split; [exact Hcollect|]. split.
  { intros listing pairs id stacks Hgroup Hid Hsize.
    assert (Hshape : group_shape stacks).
    { apply (collect_shape listing ∅ pairs) with (id := id);
        [|exact Hgroup|exact Hid].
      intros id' stacks'. by rewrite lookup_empty. }
    destruct Hshape as [[b ->] | [[g ->] | (b & g & ->)]].
    - exists b. split; [by left|]. intros. apply Hlone.
    - exists g. split; [by right|]. intros. apply Hlone.
    - exfalso.
      rewrite map_size_insert_None in Hsize by (by apply lookup_singleton_ne).
      rewrite map_size_singleton in Hsize. lia. }
  split; [exact Hlone|]. split.
  { intros w2 dir listing pairs Hdef2 Hacc2 Hlist2 Hgroup out2. subst out2.
    assert (Hitems : Forall (fun item => group_shape item.2) (map_to_list pairs)).
    { apply Forall_forall. intros [id stacks] Hin. cbn [snd].
      apply elem_of_map_to_list in Hin.
      apply (collect_shape listing ∅ pairs) with (id := id);
        [|exact Hgroup|exact Hin].
      intros id' stacks'. by rewrite lookup_empty. }
    unfold multi_registration.main, bindM, lift, print, gets, os_listdir.
    rewrite Hheap. cbn [listdir with_stdout abspath]. rewrite Hlist2, Hgroup.
    match goal with
    | |- context [multi_registration.process_all _ _ _ _ _ _ _ ?ww] =>
        destruct (multi_process_all_accepted walltime trans h (pretty mem +:+ "gb")
                    (pretty vmem +:+ "gb") (map_to_list pairs) 1000 ww Hdef2 Hacc2 Hitems)
          as (w' & -> & _ & _ & Hs & _)
    end.
    cbn [fst snd]. split; [reflexivity | exact Hs]. }
  split.
  { intros display_number w'. apply multi_process_single; [by vm_compute|].
    left. by vm_compute. }
  set (line := "Creating job to process " +:+ "K1_B.tif" +:+ "," +:+ "K1_G.tif").
  set (d := BatchJob_init (getcwd w) (next_tmp w)
              (driver_args ("align_" +:+ "K1") walltime (pretty mem +:+ "gb")
                 (pretty vmem +:+ "gb"))).
  assert (Hout : exists w0 script env,
            pbs_calls w0 = pbs_calls w
            /\ submit_calls w0 d (built env d) = submit_calls w d (built env d)
            /\ out = (Ok tt,
                      with_stdout
                        (stdout (after_remove w0 line script d (built env d))
                           ++ [unmatched_line "K2_B.tif"])
                        (after_remove w0 line script d (built env d)))).
  { subst out. unfold multi_registration.main, bindM, print, lift, gets, os_listdir.
    rewrite Hheap. cbn [listdir with_stdout abspath]. rewrite Hlist, Hcollect.
    match goal with
    | |- context [multi_registration.process_all _ _ _ _ _ _ _ ?ww] =>
        destruct (process_directory ww walltime trans h (pretty mem +:+ "gb")
                    (pretty vmem +:+ "gb") Hdef Haccept) as (script & env & _ & Hrun);
        rewrite Hrun; exists ww, script, env
    end.
    repeat split. }
  destruct Hout as (w0 & script & env & Hcalls & Hsub & ->).
  cbn [fst snd]. split; [reflexivity|].
  assert (Hpbs : pbs_calls
                   (with_stdout
                      (stdout (after_remove w0 line script d (built env d))
                         ++ [unmatched_line "K2_B.tif"])
                      (after_remove w0 line script d (built env d)))
                 = pbs_calls w ++ submit_calls w d (built env d)).
  { unfold after_remove, after_submit.
    cbn [pbs_calls with_stdout with_files with_pbs_calls].
    by rewrite Hcalls, Hsub. }
  rewrite Hpbs. split; [|split].
  - exists (built env d). split; [reflexivity|].
    apply (named_in_built env d).
    + apply (reachable_count_ge (getcwd w)), reach_init.
    + reflexivity.
  - rewrite count_calls_app. unfold submit_calls.
    change (count_calls pbs.is_submit [_; _; _]) with 1%nat. lia.
  - cbn [stdout with_stdout]. apply elem_of_app. right. left.
Qed.

Lemma C9_pair_submitted_lone_stack_skipped_witness :
  env_defined Examples.accepting
  /\ (multi_registration.main DEFAULT_WALLTIME DEFAULT_MEM DEFAULT_VMEM
        multi_registration.DEFAULT_TRANSFORMATION "stacks" Examples.accepting).1 = Ok tt
  /\ count_calls pbs.is_submit
       (pbs_calls (multi_registration.main DEFAULT_WALLTIME DEFAULT_MEM DEFAULT_VMEM
                     multi_registration.DEFAULT_TRANSFORMATION "stacks"
                     Examples.accepting).2)
     = S (count_calls pbs.is_submit (pbs_calls Examples.accepting))
  /\ multi_registration.process "4:00:00" "Affine" "13332" "14gb" "25gb" "K7"
       {["G" := "K7_G.tif"]} 1000 Examples.rejecting
     = (Ok 1000,
        with_stdout (stdout Examples.rejecting ++ [unmatched_line "K7_G.tif"])
          Examples.rejecting).
Proof.
  split; [by apply env_defined_full|].
  destruct (C9_pair_submitted_lone_stack_skipped Examples.accepting DEFAULT_WALLTIME
              multi_registration.DEFAULT_TRANSFORMATION "stacks" "13332"
              DEFAULT_MEM DEFAULT_VMEM Examples.directory)
    as (_ & _ & Hlone & _ & _ & Hok & _ & Hcount & _).
  - by apply env_defined_full.
  - vm_compute. reflexivity.
  - reflexivity.
  - reflexivity.
  - reflexivity.
  - split; [exact Hok|]. split; [exact Hcount|]. apply Hlone.
Defined.
